(** * Personal finance tracker ([Main.py]): the ledger and its derived views

    A shallow embedding of the classes [Transaction] and [FinanceManager]
    of [src/Main.py], followed by the properties of the ledger: identifier
    allocation, deletion, filtering, balance, per-category totals and the
    persistence round trip.

    Conventions of the embedding.
    - Python [int] is [Z]; [str] is [string]; a [dict] is a [gmap].
    - [float] is binary64, as the primitive floats of Rocq: [+] and [-]
      round to nearest, and equality in the statements is identity of the
      value (one NaN, two zeros).
    - The durable store is what [json.load] does with the file: the value
      that it returns, or the exception that it raises; the text encoding
      done by the [json] module is not modelled, and [json.load] is taken
      to return what [json.dump] was given.
    - Mutation of [self] and of the file is explicit state passing. *)

From Stdlib Require Import ZArith String Ascii Floats.
From stdpp Require Import gmap strings list fin_maps numbers sorting.

Local Open Scope Z_scope.

(** Decimal literals such as 0.1 stand for the nearest binary64 value, as
    they do in Python. *)
#[local] Set Warnings "-inexact-float".

(* ===================================================================== *)
(** * Python values and exceptions *)
(* ===================================================================== *)

(** The objects [json.load] can return. *)
#[warnings="-register-all"]
Inductive json : Type :=
  | JNull
  | JBool (b : bool)
  | JInt (z : Z)
  | JFloat (x : float)
  | JStr (s : string)
  | JArr (l : list json)
  | JObj (d : gmap string json).

(** The exceptions that the loading code can meet. *)
Inductive exn : Type :=
  | JSONDecodeError
  | UnicodeDecodeError
  | RecursionError
  | ValueError
  | KeyError (k : string)
  | TypeError
  | AttributeError.

Inductive result (A : Type) : Type :=
  | Ok (a : A)
  | Raise (e : exn).
Arguments Ok {A} a.
Arguments Raise {A} e.

Definition bind {A B} (r : result A) (k : A → result B) : result B :=
  match r with
  | Ok a => k a
  | Raise e => Raise e
  end.

Notation "'do' x <- r ; k" := (bind r (λ x, k))
  (at level 10, x name, r at level 100, k at level 200).

(** [data[k]] for a string key [k]. Only a dict accepts it; a missing key
    raises [KeyError], any other object raises [TypeError]. *)
Definition getitem (data : json) (k : string) : result json :=
  match data with
  | JObj d => match d !! k with
              | Some v => Ok v
              | None => Raise (KeyError k)
              end
  | _ => Raise TypeError
  end.

(** [data.get(k, dflt)]. *)
Definition py_get (data : json) (k : string) (dflt : json) : result json :=
  match data with
  | JObj d => Ok (default dflt (d !! k))
  | _ => Raise AttributeError
  end.

Fixpoint chars (s : string) : list json :=
  match s with
  | EmptyString => []
  | String c s' => JStr (String c EmptyString) :: chars s'
  end.

(** [for t in v]: a list yields its elements, a string its characters, a
    dict its keys; the other objects are not iterable. *)
Definition py_iter (v : json) : result (list json) :=
  match v with
  | JArr l => Ok l
  | JStr s => Ok (chars s)
  | JObj d => Ok (JStr <$> (map_to_list d).*1)
  | _ => Raise TypeError
  end.

(** Truth value of an object, as tested by [x if x else y]. *)
Definition truthy (v : json) : bool :=
  match v with
  | JNull => false
  | JBool b => b
  | JInt z => negb (Z.eqb z 0)
  | JFloat x => negb (PrimFloat.eqb x 0)
  | JStr s => negb (String.eqb s "")
  | JArr l => negb (bool_decide (l = []))
  | JObj d => negb (bool_decide (d = ∅))
  end.

(** The builtin [sum] on floats: a left-to-right accumulation that starts
    from 0, each addition rounding (CPython up to 3.11; later versions
    carry a compensation term along). *)
Definition py_sum (xs : list float) : float := foldl PrimFloat.add 0%float xs.

(** [[f(t) for t in l if cond(t)]], and the generator of the same shape:
    the elements are visited in order and the selected ones appended. *)
Definition comprehension {A B} (f : A → B) (cond : A → bool) (l : list A) : list B :=
  foldl (λ acc t, if cond t then acc ++ [f t] else acc) [] l.

(* ===================================================================== *)
(** * The clock *)
(* ===================================================================== *)

Record datetime : Type := {
  year : nat; month : nat; day : nat;
  hour : nat; minute : nat; second : nat
}.

Definition digit (n : nat) : ascii := ascii_of_nat (48 + n `mod` 10)%nat.

Definition pad2 (n : nat) (rest : string) : string :=
  String (digit (n `div` 10)%nat) (String (digit n) rest).

Definition pad4 (n : nat) (rest : string) : string :=
  String (digit (n `div` 1000)%nat) (String (digit (n `div` 100)%nat) (pad2 n rest)).

(** [strftime("%Y-%m-%d %H:%M:%S")]. *)
Definition strftime (t : datetime) : string :=
  pad4 (year t) (String "-" (pad2 (month t) (String "-" (pad2 (day t) (String " "
  (pad2 (hour t) (String ":" (pad2 (minute t) (String ":" (pad2 (second t) "")))))))))).

(* ===================================================================== *)
(** * class Transaction *)
(* ===================================================================== *)

Record Transaction : Type := {
  transaction_id : Z;
  transaction_type : string;   (* 'income' or 'expense' *)
  category : string;
  amount : float;
  description : string;
  date : string
}.

(** [Transaction.__init__]; [dt] is the optional [date] argument.
    [date if date else datetime.now().strftime(...)]: [None] and the empty
    string are both replaced by the formatted clock reading. *)
Definition new_Transaction (now : datetime) (id : Z) (ty cat : string)
    (amt : float) (descr : string) (dt : option string) : Transaction :=
  {| transaction_id := id;
     transaction_type := ty;
     category := cat;
     amount := amt;
     description := descr;
     date := match dt with
             | Some s => if String.eqb s "" then strftime now else s
             | None => strftime now
             end |}.

Definition to_dict (t : Transaction) : json :=
  JObj (<["transaction_id" := JInt (transaction_id t)]>
       (<["transaction_type" := JStr (transaction_type t)]>
       (<["category" := JStr (category t)]>
       (<["amount" := JFloat (amount t)]>
       (<["description" := JStr (description t)]>
       (<["date" := JStr (date t)]> ∅)))))).

(** The annotations of [__init__], read as casts from loaded objects. A
    loaded object of another Python type is stored by [from_dict] without
    complaint; such a ledger is outside this typed model ([None]). *)
Definition as_int (v : json) : option Z :=
  match v with JInt z => Some z | _ => None end.
Definition as_str (v : json) : option string :=
  match v with JStr s => Some s | _ => None end.
Definition as_float (v : json) : option float :=
  match v with JFloat x => Some x | _ => None end.
(** A false [date] object of any type is replaced by the clock reading. *)
Definition as_date (v : json) : option (option string) :=
  if truthy v then Some <$> as_str v else Some None.

(** [Transaction.from_dict]: the six subscripts are evaluated first, in
    order, then the constructor runs. [Ok None] is an object that Python
    builds but whose fields do not have the annotated types. *)
Definition from_dict (now : datetime) (data : json) : result (option Transaction) :=
  do i <- getitem data "transaction_id";
  do ty <- getitem data "transaction_type";
  do c <- getitem data "category";
  do a <- getitem data "amount";
  do d <- getitem data "description";
  do dt <- getitem data "date";
  Ok (i' ← as_int i; ty' ← as_str ty; c' ← as_str c; a' ← as_float a;
      d' ← as_str d; dt' ← as_date dt;
      Some (new_Transaction now i' ty' c' a' d' dt')).

(* ===================================================================== *)
(** * class FinanceManager *)
(* ===================================================================== *)

Record FinanceManager : Type := {
  transactions : list Transaction;
  next_transaction_id : Z
}.

(** What an existing file holds, by what [json.load] does with it: bytes
    that the text codec refuses, text that is not JSON, JSON that is nested
    beyond the recursion limit, JSON with an integer literal beyond the
    digit limit, or JSON that it turns into a value. *)
Inductive contents : Type :=
  | NotText
  | NotJSON
  | TooDeep
  | TooLong
  | Document (j : json).

(** The file [self.data_file]: absent, or present with some contents;
    [writes] counts the [json.dump] calls made so far. *)
Record Disk : Type := {
  data_file : option contents;
  writes : nat
}.

Definition json_load (c : contents) : result json :=
  match c with
  | NotText => Raise UnicodeDecodeError
  | NotJSON => Raise JSONDecodeError
  | TooDeep => Raise RecursionError
  | TooLong => Raise ValueError
  | Document j => Ok j
  end.

(** The state set up by [__init__] before loading, and restored by the
    handler of [load_transactions]. *)
Definition fresh : FinanceManager :=
  {| transactions := []; next_transaction_id := 1 |}.

(** [[Transaction.from_dict(t) for t in items]]; [clock i] is the clock
    reading while element [i] is built. The first exception ends the
    comprehension. *)
Fixpoint from_dicts (clock : nat → datetime) (i : nat) (items : list json)
    : result (list (option Transaction)) :=
  match items with
  | [] => Ok []
  | t :: items' =>
      do o <- from_dict (clock i) t;
      do os <- from_dicts clock (S i) items';
      Ok (o :: os)
  end.

(** The body of the [try] block of [load_transactions]. *)
Definition load_body (clock : nat → datetime) (c : contents)
    : result (option FinanceManager) :=
  do data <- json_load c;
  do ts <- getitem data "transactions";
  do items <- py_iter ts;
  do objs <- from_dicts clock 0 items;
  do nid <- py_get data "next_id" (JInt 1);
  Ok (l ← mapM id objs; n ← as_int nid;
      Some {| transactions := l; next_transaction_id := n |}).

(** How the constructor ends: with a ledger, with an exception that
    nothing catches, or with a ledger that Python builds but whose fields
    are not of the annotated types, which the typed records cannot hold. *)
Inductive outcome : Type :=
  | Constructed (self : FinanceManager)
  | Crashed (e : exn)
  | Untyped.

(** [load_transactions]: [except (json.JSONDecodeError, KeyError)] resets
    the ledger; every other exception propagates. *)
Definition load_transactions (clock : nat → datetime) (disk : Disk)
    (self : FinanceManager) : outcome :=
  match data_file disk with
  | None => Constructed self
  | Some c =>
      match load_body clock c with
      | Ok (Some self') => Constructed self'
      | Ok None => Untyped
      | Raise JSONDecodeError => Constructed fresh
      | Raise (KeyError _) => Constructed fresh
      | Raise e => Crashed e
      end
  end.

(** [FinanceManager.__init__]. *)
Definition new_FinanceManager (clock : nat → datetime) (disk : Disk) : outcome :=
  load_transactions clock disk fresh.

(** The object handed to [json.dump] by [save_transactions]. *)
Definition dump (self : FinanceManager) : json :=
  JObj (<["transactions" := JArr (comprehension to_dict (λ _, true) (transactions self))]>
       (<["next_id" := JInt (next_transaction_id self)]> ∅)).

Definition save_transactions (self : FinanceManager) (disk : Disk) : Disk :=
  {| data_file := Some (Document (dump self)); writes := S (writes disk) |}.

Definition add_transaction (now : datetime) (ty cat : string) (amt : float)
    (descr : string) (self : FinanceManager) (disk : Disk)
    : Transaction * FinanceManager * Disk :=
  let transaction :=
    new_Transaction now (next_transaction_id self) ty cat amt descr None in
  let self' := {| transactions := transactions self ++ [transaction];
                  next_transaction_id := next_transaction_id self + 1 |} in
  (transaction, self', save_transactions self' disk).

(** The [for i, t in enumerate(...)] loop of [delete_transaction]: the
    index at which it stops, if it does. *)
Fixpoint first_match (id : Z) (i : nat) (rest : list Transaction) : option nat :=
  match rest with
  | [] => None
  | t :: rest' =>
      if Z.eqb (transaction_id t) id then Some i else first_match id (S i) rest'
  end.

Definition delete_transaction (id : Z) (self : FinanceManager) (disk : Disk)
    : bool * FinanceManager * Disk :=
  match first_match id 0 (transactions self) with
  | Some i =>
      let self' := {| transactions := delete i (transactions self);
                      next_transaction_id := next_transaction_id self |} in
      (true, self', save_transactions self' disk)
  | None => (false, self, disk)
  end.

Definition get_all_transactions (self : FinanceManager) : list Transaction :=
  transactions self.

Definition get_transactions_by_type (ty : string) (self : FinanceManager)
    : list Transaction :=
  comprehension id (λ t, String.eqb (transaction_type t) ty) (transactions self).

Definition calculate_balance (self : FinanceManager) : float :=
  let income := py_sum (comprehension amount
                  (λ t, String.eqb (transaction_type t) "income") (transactions self)) in
  let expenses := py_sum (comprehension amount
                  (λ t, String.eqb (transaction_type t) "expense") (transactions self)) in
  (income - expenses)%float.

(** One turn of the loop of [get_category_summary]. *)
Definition summary_step (summary : gmap string float) (t : Transaction)
    : gmap string float :=
  if String.eqb (transaction_type t) "expense"
  then <[category t := (default 0%float (summary !! category t) + amount t)%float]> summary
  else summary.

Definition get_category_summary (self : FinanceManager) : gmap string float :=
  foldl summary_step ∅ (transactions self).

(** [sum(summary.values())], as [view_category_summary] totals the dict:
    the values are added in the order of the items. *)
Definition sum_values (items : list (string * float)) : float :=
  py_sum items.*2.

(* ===================================================================== *)
(** * Runs of a ledger *)
(* ===================================================================== *)

(** A call made by the interface layer; [Add] carries the clock reading at
    the time of the call. *)
Inductive op : Type :=
  | Add (now : datetime) (ty cat : string) (amt : float) (descr : string)
  | Delete (id : Z).

Inductive ret : Type :=
  | Added (t : Transaction)
  | Deleted (found : bool).

Definition step (w : FinanceManager * Disk) (o : op)
    : ret * (FinanceManager * Disk) :=
  match o with
  | Add now ty cat amt descr =>
      let '(t, self', disk') := add_transaction now ty cat amt descr w.1 w.2 in
      (Added t, (self', disk'))
  | Delete id =>
      let '(b, self', disk') := delete_transaction id w.1 w.2 in
      (Deleted b, (self', disk'))
  end.

(** The values returned by a sequence of calls, in call order, and the
    ledger and file they leave. *)
Fixpoint run (w : FinanceManager * Disk) (ops : list op)
    : list ret * (FinanceManager * Disk) :=
  match ops with
  | [] => ([], w)
  | o :: ops' =>
      let '(r, w') := step w o in
      let '(rs, w'') := run w' ops' in
      (r :: rs, w'')
  end.

(** The ids of the transactions returned by the [Add] calls of a run. *)
Fixpoint added_ids (rs : list ret) : list Z :=
  match rs with
  | [] => []
  | Added t :: rs' => transaction_id t :: added_ids rs'
  | Deleted _ :: rs' => added_ids rs'
  end.

Definition ids (self : FinanceManager) : list Z :=
  transaction_id <$> transactions self.

(** Every id that was in the collection at some point of a run that
    started in [self] and returned [rs]. *)
Definition ever_present (self : FinanceManager) (rs : list ret) : list Z :=
  ids self ++ added_ids rs.

(** The counter is above every id of the collection. *)
Definition counter_above (self : FinanceManager) : Prop :=
  Forall (λ i, i < next_transaction_id self) (ids self).

(** Every transaction of the collection has a date. *)
Definition dated (self : FinanceManager) : Prop :=
  Forall (λ t, date t ≠ "") (transactions self).

(** The ledgers that exist: built by the constructor from some file, then
    changed by [add_transaction] and [delete_transaction]. *)
Inductive reachable : FinanceManager → Prop :=
  | reachable_new clock disk self :
      new_FinanceManager clock disk = Constructed self → reachable self
  | reachable_add now ty cat amt descr self disk :
      reachable self →
      reachable (add_transaction now ty cat amt descr self disk).1.2
  | reachable_delete id self disk :
      reachable self →
      reachable (delete_transaction id self disk).1.2.

(* ===================================================================== *)
(** * The views, as the specification words them *)
(* ===================================================================== *)

(** The sum of the amounts of a list of transactions, taken as [sum]
    takes it: from 0, in the order of the list. *)
Definition sum_amounts (l : list Transaction) : float :=
  py_sum (amount <$> l).

(** The transactions of one kind, in ledger order. *)
Definition of_kind (ty : string) (l : list Transaction) : list Transaction :=
  filter (λ t, transaction_type t = ty) l.

(** The expenses of one category. *)
Definition expenses_in (c : string) (l : list Transaction) : list Transaction :=
  filter (λ t, category t = c) (of_kind "expense" l).

(** What the summary holds for a category, given the expenses of it. *)
Definition summary_entry (es : list Transaction) : option float :=
  match es with
  | [] => None
  | _ :: _ => Some (sum_amounts es)
  end.

(** The fields that [from_dict] reads. *)
Definition fields : list string :=
  ["transaction_id"; "transaction_type"; "category"; "amount";
   "description"; "date"].

Definition is_object (j : json) : bool :=
  match j with JObj _ => true | _ => false end.

(** An object that lacks one of the fields of a transaction. *)
Definition lacks_field (j : json) : bool :=
  match j with
  | JObj d => existsb (λ k, bool_decide (d !! k = None)) fields
  | _ => false
  end.

(** The stores that [load_transactions] discards: text that is not JSON,
    an object without the list of transactions, or an object whose list
    holds only objects, one of which lacks a field. *)
Definition discarded (c : contents) : Prop :=
  c = NotJSON
  ∨ (∃ d, c = Document (JObj d) ∧ d !! "transactions" = None)
  ∨ (∃ d l, c = Document (JObj d) ∧ d !! "transactions" = Some (JArr l)
            ∧ forallb is_object l = true ∧ existsb lacks_field l = true).

(** Malformed, as the specification has it: unparseable, which is every
    file that [json.load] does not turn into a value, or an object that
    lacks the list of transactions or the counter. *)
Definition malformed (c : contents) : Prop :=
  (∀ j, c ≠ Document j)
  ∨ ∃ d, c = Document (JObj d)
         ∧ (d !! "transactions" = None ∨ d !! "next_id" = None).

(* ===================================================================== *)
(** * Sample ledgers and files *)
(* ===================================================================== *)

Definition noon : datetime :=
  {| year := 2024; month := 7; day := 1; hour := 12; minute := 0; second := 0 |}.

Definition rent : Transaction :=
  {| transaction_id := 7; transaction_type := "expense"; category := "Rent";
     amount := 800%float; description := "July"; date := "2024-07-01 09:00:00" |}.

Definition lunch : Transaction :=
  {| transaction_id := 1; transaction_type := "expense"; category := "Food";
     amount := 12%float; description := "Lunch"; date := "2024-07-02 13:00:00" |}.

Definition dinner : Transaction :=
  {| transaction_id := 1; transaction_type := "expense"; category := "Food";
     amount := 30%float; description := "Dinner"; date := "2024-07-02 20:00:00" |}.

Definition file_of (j : json) : Disk :=
  {| data_file := Some (Document j); writes := 0 |}.

Definition no_file : Disk := {| data_file := None; writes := 0 |}.

(** A file that holds one transaction and no [next_id]. *)
Definition store_without_next_id : json :=
  JObj (<["transactions" := JArr [to_dict rent]]> ∅).

(** A file whose [next_id] is below the id of its transaction. *)
Definition store_with_stale_counter : json :=
  JObj (<["transactions" := JArr [to_dict rent]]> (<["next_id" := JInt 3]> ∅)).

(** A file in which two transactions bear the same id. *)
Definition store_with_duplicate_id : json :=
  JObj (<["transactions" := JArr [to_dict lunch; to_dict dinner]]>
       (<["next_id" := JInt 2]> ∅)).

(* ===================================================================== *)
(** * Further notions for the ledger *)
(* ===================================================================== *)

(** The first field, in the order in which [from_dict] subscripts them,
    that a dict lacks. *)
Definition first_missing (d : gmap string json) : option string :=
  head (filter (λ k, d !! k = None) fields).

(** The objects that can neither be subscripted nor iterated. *)
Definition is_scalar (v : json) : bool :=
  match v with
  | JNull | JBool _ | JInt _ | JFloat _ => true
  | _ => false
  end.

(** The [Add] calls of a sequence of calls. *)
Fixpoint count_adds (ops : list op) : nat :=
  match ops with
  | [] => 0
  | Add _ _ _ _ _ :: ops' => S (count_adds ops')
  | Delete _ :: ops' => count_adds ops'
  end.

(** The [Delete] calls that returned true. *)
Fixpoint count_found (rs : list ret) : nat :=
  match rs with
  | [] => 0
  | Deleted true :: rs' => S (count_found rs')
  | _ :: rs' => count_found rs'
  end.

(** The file holds the ledger: a constructor that reads it, at whatever
    time, builds this ledger. *)
Definition in_sync (self : FinanceManager) (disk : Disk) : Prop :=
  ∀ clock, new_FinanceManager clock disk = Constructed self.

(* ===================================================================== *)
(** * The summary as a Python dict *)
(* ===================================================================== *)

(** A dict keeps its keys in the order in which they were first set. The
    interface sorts the items of the summary, so it sees this order. *)
Fixpoint dict_get (k : string) (items : list (string * float)) : option float :=
  match items with
  | [] => None
  | (k', v) :: items' => if String.eqb k' k then Some v else dict_get k items'
  end.

(** [d[k] = v]: the value is replaced where the key stands, or the key is
    added at the end. *)
Fixpoint dict_set (k : string) (v : float) (items : list (string * float))
    : list (string * float) :=
  match items with
  | [] => [(k, v)]
  | (k', v') :: items' =>
      if String.eqb k' k then (k, v) :: items'
      else (k', v') :: dict_set k v items'
  end.

(** The loop of [get_category_summary] once more, on the items of the
    dict in their order. *)
Definition summary_items_step (items : list (string * float)) (t : Transaction)
    : list (string * float) :=
  if String.eqb (transaction_type t) "expense"
  then dict_set (category t)
         (default 0%float (dict_get (category t) items) + amount t)%float items
  else items.

Definition get_category_summary_items (self : FinanceManager)
    : list (string * float) :=
  foldl summary_items_step [] (transactions self).

(* ===================================================================== *)
(** * class FinanceTrackerUI *)
(* ===================================================================== *)

Module FinanceTrackerUI.

(** The builtins that the interface applies are parameters of the model:
    [float(s)] and [int(s)], which are [None] when Python raises
    [ValueError], [s.strip()], and
    [sorted(items, key=lambda x: x[1], reverse=True)]. *)
Record Builtins : Type := {
  py_float : string → option float;
  py_int : string → option Z;
  py_strip : string → string;
  py_sorted : list (string * float) → list (string * float)
}.

(** The exceptions that reading from the user can raise. *)
Inductive ui_exn : Type :=
  | ValueError
  | EOFError.

(** The questions put to the user by [input]. *)
Inductive prompt : Type :=
  | AskChoice
  | AskCategory (kind : string)
  | AskAmount
  | AskDescription
  | AskId.

(** What is written on the screen. The layout of the text, and with it
    the formatting of the amounts, is not modelled: each message is
    recorded with the values that it shows. *)
Inductive output : Type :=
  | Prompted (p : prompt)
  | Welcome
  | Menu
  | Heading (kind : string)
  | AddedOk (kind : string) (id : Z)
  | NoTransactions
  | TransactionTable (rows : list Transaction)
  | FinancialSummary (income expenses balance : float)
  | NoCategories
  | Breakdown (rows : list (string * float)) (total : float)
  | DeletedOk
  | NotFound
  | InvalidID
  | InvalidChoice
  | ErrorOccurred (e : ui_exn)
  | Goodbye.

(** The interface with its surroundings: the ledger and its file, the
    lines that the user will type, what has been written so far, and the
    number of lines read so far, which tells the time. *)
Record UI : Type := {
  manager : FinanceManager;
  storage : Disk;
  stdin : list string;
  stdout : list output;
  elapsed : nat
}.

Inductive reply (A : Type) : Type :=
  | Returned (a : A) (ui : UI)
  | Raised (e : ui_exn) (ui : UI).
Arguments Returned {A} a ui.
Arguments Raised {A} e ui.

Definition after {A} (r : reply A) : UI :=
  match r with
  | Returned _ ui => ui
  | Raised _ ui => ui
  end.

Definition io (A : Type) : Type := UI → reply A.

Definition io_bind {A B} (m : io A) (k : A → io B) : io B :=
  λ ui, match m ui with
        | Returned a ui' => k a ui'
        | Raised e ui' => Raised e ui'
        end.

Notation "'io!' x <- m ; k" := (io_bind m (λ x, k))
  (at level 10, x name, m at level 100, k at level 200).

Definition print (o : output) : io unit :=
  λ ui, Returned ()
          {| manager := manager ui; storage := storage ui; stdin := stdin ui;
             stdout := stdout ui ++ [o]; elapsed := elapsed ui |}.

(** [input(prompt)]: the prompt is written, then a line is read; at the
    end of the input [EOFError] is raised. *)
Definition input (p : prompt) : io string :=
  λ ui, match stdin ui with
        | [] =>
            Raised EOFError
              {| manager := manager ui; storage := storage ui; stdin := [];
                 stdout := stdout ui ++ [Prompted p]; elapsed := elapsed ui |}
        | line :: rest =>
            Returned line
              {| manager := manager ui; storage := storage ui; stdin := rest;
                 stdout := stdout ui ++ [Prompted p];
                 elapsed := S (elapsed ui) |}
        end.

(** [float(s)] at the place of the call. *)
Definition convert (B : Builtins) (s : string) : io float :=
  λ ui, match py_float B s with
        | Some x => Returned x ui
        | None => Raised ValueError ui
        end.

(** [self.manager.add_transaction(...)]. *)
Definition manager_add (clock : nat → datetime) (ty cat : string) (amt : float)
    (descr : string) : io Transaction :=
  λ ui, let r := add_transaction (clock (elapsed ui)) ty cat amt descr
                   (manager ui) (storage ui) in
        Returned r.1.1
          {| manager := r.1.2; storage := r.2; stdin := stdin ui;
             stdout := stdout ui; elapsed := elapsed ui |}.

(** [self.manager.delete_transaction(id)]. *)
Definition manager_delete (id : Z) : io bool :=
  λ ui, let r := delete_transaction id (manager ui) (storage ui) in
        Returned r.1.1
          {| manager := r.1.2; storage := r.2; stdin := stdin ui;
             stdout := stdout ui; elapsed := elapsed ui |}.

(** The calls on the ledger that a part of the interface can make: every
    [Add] is of kind income or expense. *)
Definition menu_op (o : op) : Prop :=
  match o with
  | Add _ ty _ _ _ => ty = "income" ∨ ty = "expense"
  | Delete _ => True
  end.

(** A part of the interface reads lines and never puts any back, and what
    it does to the ledger and its file is what some sequence of calls of
    the menu does. *)
Definition tame {A} (m : io A) : Prop :=
  ∀ ui,
    (length (stdin (after (m ui))) ≤ length (stdin ui))%nat
    ∧ ∃ ops, Forall menu_op ops
             ∧ (manager (after (m ui)), storage (after (m ui)))
               = (run (manager ui, storage ui) ops).2.

Definition display_menu : io unit := print Menu.

(** [add_income] and [add_expense] differ in the kind and in the texts
    only. The amount is converted before the description is asked for. *)
Definition add_form (B : Builtins) (clock : nat → datetime) (kind : string)
    : io unit :=
  io! _ <- print (Heading kind);
  io! c <- input (AskCategory kind);
  io! a <- input AskAmount;
  io! amt <- convert B a;
  io! d <- input AskDescription;
  io! t <- manager_add clock kind (py_strip B c) amt (py_strip B d);
  print (AddedOk kind (transaction_id t)).

Definition add_income (B : Builtins) (clock : nat → datetime) : io unit :=
  add_form B clock "income".

Definition add_expense (B : Builtins) (clock : nat → datetime) : io unit :=
  add_form B clock "expense".

Definition view_all_transactions : io unit :=
  λ ui, match get_all_transactions (manager ui) with
        | [] => print NoTransactions ui
        | ts => print (TransactionTable ts) ui
        end.

Definition view_balance : io unit :=
  λ ui, let balance := calculate_balance (manager ui) in
        let income := py_sum (comprehension amount (λ _, true)
                        (get_transactions_by_type "income" (manager ui))) in
        let expenses := py_sum (comprehension amount (λ _, true)
                          (get_transactions_by_type "expense" (manager ui))) in
        print (FinancialSummary income expenses balance) ui.

Definition view_category_summary (B : Builtins) : io unit :=
  λ ui, let summary := get_category_summary_items (manager ui) in
        match summary with
        | [] => print NoCategories ui
        | _ => print (Breakdown (py_sorted B summary) (sum_values summary)) ui
        end.

(** The [delete_transaction] of the interface. Only the [ValueError] of
    [int] is handled here. *)
Definition delete_transaction (B : Builtins) : io unit :=
  io! _ <- view_all_transactions;
  λ ui, match get_all_transactions (manager ui) with
        | [] => Returned () ui
        | _ =>
            (io! s <- input AskId;
             match py_int B s with
             | Some id =>
                 io! found <- manager_delete id;
                 print (if found then DeletedOk else NotFound)
             | None => print InvalidID
             end) ui
        end.

Inductive action : Type :=
  | Continue
  | Break.

(** The [if]/[elif] chain of [run]. *)
Definition dispatch (B : Builtins) (clock : nat → datetime) (choice : string)
    : io action :=
  if String.eqb choice "1" then io! _ <- add_income B clock; Returned Continue
  else if String.eqb choice "2" then io! _ <- add_expense B clock; Returned Continue
  else if String.eqb choice "3" then io! _ <- view_all_transactions; Returned Continue
  else if String.eqb choice "4" then io! _ <- view_balance; Returned Continue
  else if String.eqb choice "5" then io! _ <- view_category_summary B; Returned Continue
  else if String.eqb choice "6" then io! _ <- delete_transaction B; Returned Continue
  else if String.eqb choice "7" then io! _ <- print Goodbye; Returned Break
  else io! _ <- print InvalidChoice; Returned Continue.

(** How a session ends: by the Exit command, by an exception that nothing
    catches, or, in the model only, because the fuel ran out. *)
Inductive ending : Type :=
  | Exited
  | Aborted (e : ui_exn)
  | OutOfFuel.

(** The [while True] loop of [run]. The menu and the reading of the choice
    are outside the [try]; what the chain raises is reported and the loop
    goes on. *)
Fixpoint loop (B : Builtins) (clock : nat → datetime) (fuel : nat) (ui : UI)
    : ending * UI :=
  match fuel with
  | O => (OutOfFuel, ui)
  | S fuel' =>
      match (io! _ <- display_menu; input AskChoice) ui with
      | Raised e ui' => (Aborted e, ui')
      | Returned line ui' =>
          match dispatch B clock (py_strip B line) ui' with
          | Returned Break ui'' => (Exited, ui'')
          | Returned Continue ui'' => loop B clock fuel' ui''
          | Raised e ui'' => loop B clock fuel' (after (print (ErrorOccurred e) ui''))
          end
      end
  end.

(** [run]. Every turn of the loop reads a line, so one more unit of fuel
    than there are lines is enough. *)
Definition run (B : Builtins) (clock : nat → datetime) (ui : UI) : ending * UI :=
  loop B clock (S (length (stdin ui))) (after (print Welcome ui)).

End FinanceTrackerUI.

(* ===================================================================== *)
(** * Sample sessions *)
(* ===================================================================== *)

Fixpoint digits (s : string) (acc : Z) : option Z :=
  match s with
  | EmptyString => Some acc
  | String c s' =>
      let n := nat_of_ascii c in
      if (48 <=? n)%nat && (n <=? 57)%nat
      then digits s' (10 * acc + Z.of_nat (n - 48))
      else None
  end.

Definition unsigned_decimal (s : string) : option Z :=
  match s with
  | EmptyString => None
  | _ => digits s 0
  end.

Definition digit_float (n : nat) : float :=
  match n with
  | 0%nat => 0%float | 1%nat => 1%float | 2%nat => 2%float
  | 3%nat => 3%float | 4%nat => 4%float | 5%nat => 5%float
  | 6%nat => 6%float | 7%nat => 7%float | 8%nat => 8%float
  | _ => 9%float
  end.

Fixpoint digits_float (s : string) (acc : float) : option float :=
  match s with
  | EmptyString => Some acc
  | String c s' =>
      let n := nat_of_ascii c in
      if (48 <=? n)%nat && (n <=? 57)%nat
      then digits_float s' (10 * acc + digit_float (n - 48))%float
      else None
  end.

Definition unsigned_decimal_float (s : string) : option float :=
  match s with
  | EmptyString => None
  | _ => digits_float s 0%float
  end.

(** A stable sort by falling amount: each item is put before the first
    one that is not above it. *)
Fixpoint insert_by_amount (x : string * float) (s : list (string * float))
    : list (string * float) :=
  match s with
  | [] => [x]
  | y :: s' =>
      if PrimFloat.ltb x.2 y.2 then y :: insert_by_amount x s' else x :: s
  end.

Definition sorted_by_amount (items : list (string * float))
    : list (string * float) :=
  foldr insert_by_amount [] items.

(** Stand-ins for the builtins in the examples. They agree with Python on
    what is typed there: unsigned decimal integers are read by [int] and
    [float], other texts are refused, no line has blanks to strip, and no
    amount to sort is NaN. *)
Definition sample_builtins : FinanceTrackerUI.Builtins :=
  {| FinanceTrackerUI.py_float := unsigned_decimal_float;
     FinanceTrackerUI.py_int := unsigned_decimal;
     FinanceTrackerUI.py_strip := λ s, s;
     FinanceTrackerUI.py_sorted := sorted_by_amount |}.

(** The interface on a new ledger without a file, before [lines] are
    typed. *)
Definition sample_ui (lines : list string) : FinanceTrackerUI.UI :=
  {| FinanceTrackerUI.manager := fresh;
     FinanceTrackerUI.storage := no_file;
     FinanceTrackerUI.stdin := lines;
     FinanceTrackerUI.stdout := [];
     FinanceTrackerUI.elapsed := 0 |}.

(* ===================================================================== *)
(** * Comprehensions and sums *)
(* ===================================================================== *)

Section Comprehension.
Context {A B : Type} (f : A → B) (cond : A → bool).
Context (P : A → Prop) `{!∀ x, Decision (P x)}.
Hypothesis cond_P : ∀ x, cond x = true ↔ P x.

Lemma comprehension_from acc l :
  foldl (λ acc t, if cond t then acc ++ [f t] else acc) acc l
  = acc ++ (f <$> filter P l).
Proof.
  revert acc. induction l as [|t l IH]; intros acc; simpl.
  - by rewrite app_nil_r.
  - rewrite IH. destruct (cond t) eqn:Hc.
    + rewrite filter_cons_True by by apply cond_P.
      by rewrite <- app_assoc.
    + rewrite filter_cons_False; [done|].
      intros HP. apply cond_P in HP. congruence.
Qed.

Lemma comprehension_filter l : comprehension f cond l = f <$> filter P l.
Proof. apply (comprehension_from []). Qed.
End Comprehension.

Lemma eqb_kind (ty : string) (t : Transaction) :
  String.eqb (transaction_type t) ty = true ↔ transaction_type t = ty.
Proof. apply String.eqb_eq. Qed.

Lemma comprehension_all {A B} (f : A → B) (l : list A) :
  comprehension f (λ _, true) l = f <$> l.
Proof.
  rewrite (comprehension_filter f _ (λ _, True)) by done.
  f_equal. induction l as [|x l IH]; [done|].
  by rewrite filter_cons_True, IH.
Qed.

Lemma py_sum_snoc (xs : list float) (x : float) :
  py_sum (xs ++ [x]) = (py_sum xs + x)%float.
Proof. unfold py_sum. by rewrite foldl_snoc. Qed.

Lemma sum_of_kind (ty : string) (l : list Transaction) :
  py_sum (comprehension amount (λ t, String.eqb (transaction_type t) ty) l)
  = sum_amounts (of_kind ty l).
Proof.
  by rewrite (comprehension_filter _ _ (λ t, transaction_type t = ty))
    by (intros; apply eqb_kind).
Qed.

(* ===================================================================== *)
(** * Listing and balance *)
(* ===================================================================== *)

(** C9. [get_transactions_by_type ty] is [get_all_transactions] filtered by
    the kind [ty]: it holds exactly the transactions whose kind is [ty], and
    they keep the relative order they have in the ledger. *)
Theorem get_transactions_by_type_filter (ty : string) (self : FinanceManager) :
  get_transactions_by_type ty self
    = filter (λ t, transaction_type t = ty) (get_all_transactions self)
  ∧ (∀ t, t ∈ get_transactions_by_type ty self
          ↔ t ∈ get_all_transactions self ∧ transaction_type t = ty)
  ∧ sublist (get_transactions_by_type ty self) (get_all_transactions self).
Proof.
  assert (get_transactions_by_type ty self
          = filter (λ t, transaction_type t = ty) (get_all_transactions self)) as ->.
  { unfold get_transactions_by_type, get_all_transactions.
    rewrite (comprehension_filter _ _ (λ t, transaction_type t = ty))
      by (intros; apply eqb_kind).
    apply list_fmap_id. }
  split_and!; [done| |apply sublist_filter].
  intros t. by rewrite list_elem_of_filter, (comm and).
Qed.


(** The sums are those of binary64: two incomes of 0.1 and 0.2 make a
    balance of 0.30000000000000004. *)
Example calculate_balance_rounds :
  calculate_balance
    {| transactions :=
         [new_Transaction noon 1 "income" "Gift" 0.1 "" None;
          new_Transaction noon 2 "income" "Gift" 0.2 "" None];
       next_transaction_id := 3 |}
  = 0.30000000000000004%float.
Proof. reflexivity. Qed.

(* ===================================================================== *)
(** * Category summary *)
(* ===================================================================== *)

Lemma get_category_summary_snoc (l : list Transaction) (t : Transaction) n n' :
  get_category_summary {| transactions := l ++ [t]; next_transaction_id := n |}
  = summary_step
      (get_category_summary {| transactions := l; next_transaction_id := n' |}) t.
Proof. unfold get_category_summary. simpl. by rewrite foldl_snoc. Qed.

Lemma sum_amounts_snoc (l : list Transaction) (t : Transaction) :
  sum_amounts (l ++ [t]) = (sum_amounts l + amount t)%float.
Proof. unfold sum_amounts. rewrite fmap_app. apply py_sum_snoc. Qed.

Lemma of_kind_snoc (ty : string) (l : list Transaction) (t : Transaction) :
  of_kind ty (l ++ [t])
  = of_kind ty l ++ (if String.eqb (transaction_type t) ty then [t] else []).
Proof.
  unfold of_kind. rewrite list.filter_app. f_equal.
  destruct (String.eqb_spec (transaction_type t) ty).
  - by rewrite filter_cons_True.
  - by rewrite filter_cons_False.
Qed.

Lemma expenses_in_snoc (c : string) (l : list Transaction) (t : Transaction) :
  expenses_in c (l ++ [t])
  = expenses_in c l
    ++ (if String.eqb (transaction_type t) "expense" && String.eqb (category t) c
        then [t] else []).
Proof.
  unfold expenses_in. rewrite of_kind_snoc, list.filter_app. f_equal.
  destruct (String.eqb (transaction_type t) "expense"); [|done]. simpl.
  destruct (String.eqb_spec (category t) c).
  - by rewrite filter_cons_True.
  - by rewrite filter_cons_False.
Qed.

Lemma summary_entry_snoc (es : list Transaction) (t : Transaction) :
  summary_entry (es ++ [t])
  = Some (default 0%float (summary_entry es) + amount t)%float.
Proof.
  destruct es as [|e es]; [done|]. cbn [summary_entry app default from_option id].
  f_equal. change (e :: es ++ [t]) with ((e :: es) ++ [t]).
  apply sum_amounts_snoc.
Qed.

Lemma get_category_summary_lookup (l : list Transaction) (n : Z) (c : string) :
  get_category_summary {| transactions := l; next_transaction_id := n |} !! c
  = summary_entry (expenses_in c l).
Proof.
  induction l as [|t l IH] using rev_ind; [done|].
  rewrite (get_category_summary_snoc l t n n), expenses_in_snoc.
  unfold summary_step.
  destruct (String.eqb (transaction_type t) "expense"); simpl.
  - destruct (String.eqb_spec (category t) c) as [->|Hne].
    + by rewrite lookup_insert_eq, summary_entry_snoc, IH.
    + by rewrite lookup_insert_ne, app_nil_r.
  - by rewrite app_nil_r.
Qed.

Lemma dict_get_lookup (k : string) (items : list (string * float)) :
  dict_get k items = (list_to_map items : gmap string float) !! k.
Proof.
  induction items as [|[k' v] items IH]; simpl; [done|].
  destruct (String.eqb_spec k' k) as [->|Hne].
  - by rewrite lookup_insert_eq.
  - by rewrite lookup_insert_ne.
Qed.

Lemma dict_set_insert (k : string) (v : float) (items : list (string * float)) :
  (list_to_map (dict_set k v items) : gmap string float)
  = <[k := v]> (list_to_map items).
Proof.
  induction items as [|[k' v'] items IH]; simpl; [done|].
  destruct (String.eqb_spec k' k) as [->|Hne]; simpl.
  - by rewrite insert_insert_eq.
  - rewrite IH. by apply insert_insert_ne.
Qed.

Lemma dict_set_keys (k : string) (v : float) (items : list (string * float)) :
  (dict_set k v items).*1
  = if bool_decide (k ∈ items.*1) then items.*1 else items.*1 ++ [k].
Proof.
  induction items as [|[k' v'] items IH]; [done|]. cbn [dict_set].
  destruct (String.eqb_spec k' k) as [->|Hne]; rewrite !fmap_cons; cbn [fst].
  - rewrite bool_decide_eq_true_2 by left. done.
  - rewrite IH. destruct (bool_decide (k ∈ items.*1)) eqn:Hin.
    + apply bool_decide_eq_true_1 in Hin.
      rewrite bool_decide_eq_true_2 by by right. done.
    + apply bool_decide_eq_false_1 in Hin.
      rewrite bool_decide_eq_false_2; [done|].
      rewrite elem_of_cons. intros [?|?]; congruence.
Qed.

Lemma dict_set_NoDup (k : string) (v : float) (items : list (string * float)) :
  NoDup items.*1 → NoDup (dict_set k v items).*1.
Proof.
  intros Hnd. rewrite dict_set_keys.
  destruct (bool_decide (k ∈ items.*1)) eqn:Hin; [done|].
  apply bool_decide_eq_false_1 in Hin.
  apply NoDup_app. split_and!; [done| |apply NoDup_singleton].
  intros x Hx. rewrite list_elem_of_singleton. congruence.
Qed.

Lemma summary_items_step_spec (items : list (string * float)) (t : Transaction) :
  NoDup items.*1 →
  NoDup (summary_items_step items t).*1
  ∧ (list_to_map (summary_items_step items t) : gmap string float)
    = summary_step (list_to_map items) t.
Proof.
  intros Hnd. unfold summary_items_step, summary_step.
  destruct (String.eqb (transaction_type t) "expense"); [|done].
  split; [by apply dict_set_NoDup|].
  by rewrite dict_set_insert, dict_get_lookup.
Qed.

Lemma summary_items_from (l : list Transaction) (items : list (string * float)) :
  NoDup items.*1 →
  NoDup (foldl summary_items_step items l).*1
  ∧ (list_to_map (foldl summary_items_step items l) : gmap string float)
    = foldl summary_step (list_to_map items) l.
Proof.
  revert items. induction l as [|t l IH]; intros items Hnd; simpl; [done|].
  destruct (summary_items_step_spec items t Hnd) as [Hnd' <-]. by apply IH.
Qed.

Lemma summary_items_values (self : FinanceManager) :
  Forall (λ kv, kv.2 = sum_amounts (expenses_in kv.1 (transactions self)))
    (get_category_summary_items self).
Proof.
  destruct (summary_items_from (transactions self) []) as [Hnd Hmap];
    [constructor|].
  change (list_to_map []) with (∅ : gmap string float) in Hmap.
  fold (get_category_summary_items self) in Hnd, Hmap.
  fold (get_category_summary self) in Hmap.
  apply Forall_forall. intros [k v] Hin. simpl.
  apply (elem_of_list_to_map_1 (M := gmap string)) in Hin; [|done].
  rewrite Hmap in Hin. destruct self as [l n].
  rewrite get_category_summary_lookup in Hin. simpl.
  destruct (expenses_in k l); [done|]. by injection Hin as <-.
Qed.

(** C8 as stated fails in its last part: with expenses of 0.1 for Food,
    0.1 for Rent and 0.4 for Food, the values of the summary, 0.5 and 0.1,
    add up to 0.6, and the expenses to 0.6000000000000001. *)
Lemma summary_values_do_not_add_up :
  ¬ (∀ self, sum_values (get_category_summary_items self)
             = sum_amounts (of_kind "expense" (transactions self))).
Proof.
  intros H.
  specialize (H (run (fresh, no_file)
                   [Add noon "expense" "Food" 0.1 "";
                    Add noon "expense" "Rent" 0.1 "";
                    Add noon "expense" "Food" 0.4 ""]).2.1).
  vm_compute in H. discriminate H.
Qed.

(** C8, amended. The category summary maps a category to the sum of the
    amounts of the expenses of that category when there is at least one,
    and has no entry for it otherwise; incomes contribute nothing. The sum
    of its values is the sum of these sums, taken in the order of the
    dict. *)
Theorem get_category_summary_spec (self : FinanceManager) :
  (∀ c, get_category_summary self !! c
        = match expenses_in c (transactions self) with
          | [] => None
          | es => Some (sum_amounts es)
          end)
  ∧ (∀ c, is_Some (get_category_summary self !! c)
          ↔ ∃ t, t ∈ transactions self
                 ∧ transaction_type t = "expense" ∧ category t = c)
  ∧ list_to_map (get_category_summary_items self) = get_category_summary self
  ∧ sum_values (get_category_summary_items self)
    = py_sum ((λ c, sum_amounts (expenses_in c (transactions self)))
                <$> (get_category_summary_items self).*1).
Proof.
  pose proof (summary_items_values self) as Hvalues.
  destruct (summary_items_from (transactions self) []) as [_ Hmap];
    [constructor|].
  change (list_to_map []) with (∅ : gmap string float) in Hmap.
  destruct self as [l n]. simpl in *.
  assert (∀ c, get_category_summary
                 {| transactions := l; next_transaction_id := n |} !! c
               = summary_entry (expenses_in c l)) as Hlook
    by (intros; apply get_category_summary_lookup).
  split_and!.
  - intros c. rewrite Hlook. by destruct (expenses_in c l).
  - intros c. rewrite Hlook. split.
    + intros Hs. destruct (expenses_in c l) as [|t es] eqn:He.
      { by destruct Hs. }
      assert (t ∈ expenses_in c l) as Ht by (rewrite He; left).
      unfold expenses_in, of_kind in Ht.
      rewrite !list_elem_of_filter in Ht.
      destruct Ht as (Hc & Hty & Hl). eauto.
    + intros (t & Ht & Hty & Hc).
      assert (t ∈ expenses_in c l) as Hin.
      { unfold expenses_in, of_kind. rewrite !list_elem_of_filter. done. }
      destruct (expenses_in c l); [by apply elem_of_nil in Hin|].
      by eexists.
  - exact Hmap.
  - unfold sum_values. f_equal.
    induction Hvalues as [|[k v] items Hkv _ IH]; [done|].
    rewrite !fmap_cons. simpl in *. by rewrite Hkv, IH.
Qed.

(* ===================================================================== *)
(** * Deletion *)
(* ===================================================================== *)

Lemma first_match_None (id : Z) (i : nat) (l : list Transaction) :
  first_match id i l = None ↔ id ∉ (transaction_id <$> l).
Proof.
  revert i. induction l as [|t l IH]; intros i; simpl.
  - split; [intros _; apply not_elem_of_nil|done].
  - rewrite not_elem_of_cons. destruct (Z.eqb_spec (transaction_id t) id) as [He|Hne].
    + split; [done|]. intros [? _]. congruence.
    + rewrite IH. split; [|tauto]. intros ?. split; [congruence|done].
Qed.

Lemma first_match_Some (id : Z) (i j : nat) (l : list Transaction) :
  first_match id i l = Some j →
  ∃ l1 t l2, l = l1 ++ t :: l2 ∧ transaction_id t = id
             ∧ (id ∉ transaction_id <$> l1) ∧ j = (i + length l1)%nat.
Proof.
  revert i. induction l as [|t l IH]; intros i; simpl; [done|].
  destruct (Z.eqb_spec (transaction_id t) id) as [He|Hne].
  - intros [= <-]. exists [], t, l. split_and!; [done|done| |simpl; lia].
    apply not_elem_of_nil.
  - intros Hm. destruct (IH _ Hm) as (l1 & u & l2 & -> & Hu & Hl1 & ->).
    exists (t :: l1), u, l2. split_and!; [done|done| |simpl; lia].
    rewrite fmap_cons, not_elem_of_cons. split; [congruence|done].
Qed.

(** What [delete_transaction] does, in either case. *)
Lemma delete_transaction_cases (id : Z) (self : FinanceManager) (disk : Disk) :
  ((id ∉ ids self) ∧ delete_transaction id self disk = (false, self, disk))
  ∨ (∃ l1 t l2,
       transactions self = l1 ++ t :: l2 ∧ transaction_id t = id
       ∧ (id ∉ transaction_id <$> l1)
       ∧ let self' := {| transactions := l1 ++ l2;
                         next_transaction_id := next_transaction_id self |} in
         delete_transaction id self disk
         = (true, self', save_transactions self' disk)).
Proof.
  unfold delete_transaction, ids.
  destruct (first_match id 0 (transactions self)) as [j|] eqn:Hm.
  - right. destruct (first_match_Some _ _ _ _ Hm) as (l1 & t & l2 & Hl & Ht & Hl1 & ->).
    exists l1, t, l2. split_and!; [done..|].
    simpl. by rewrite Hl, delete_middle.
  - left. by apply first_match_None in Hm.
Qed.

Lemma delete_transaction_sublist (id : Z) (self : FinanceManager) (disk : Disk) :
  sublist (transactions (delete_transaction id self disk).1.2) (transactions self)
  ∧ next_transaction_id (delete_transaction id self disk).1.2
    = next_transaction_id self.
Proof.
  destruct (delete_transaction_cases id self disk)
    as [[_ ->]|(l1 & t & l2 & Hl & _ & _ & ->)]; simpl; [done|].
  split; [|done]. rewrite Hl. apply sublist_app; [done|]. by apply sublist_cons.
Qed.

(* ===================================================================== *)
(** * Identifier allocation *)
(* ===================================================================== *)

Lemma step_add now ty cat amt descr (self : FinanceManager) (disk : Disk) :
  step (self, disk) (Add now ty cat amt descr)
  = let t := new_Transaction now (next_transaction_id self) ty cat amt descr None in
    let self' := {| transactions := transactions self ++ [t];
                    next_transaction_id := next_transaction_id self + 1 |} in
    (Added t, (self', save_transactions self' disk)).
Proof. done. Qed.

Lemma step_delete id (self : FinanceManager) (disk : Disk) :
  step (self, disk) (Delete id)
  = (Deleted (delete_transaction id self disk).1.1,
     ((delete_transaction id self disk).1.2, (delete_transaction id self disk).2)).
Proof. simpl. by destruct (delete_transaction id self disk) as [[??]?]. Qed.

Lemma run_cons (w : FinanceManager * Disk) (o : op) (ops : list op) :
  run w (o :: ops)
  = ((step w o).1 :: (run (step w o).2 ops).1, (run (step w o).2 ops).2).
Proof.
  simpl. destruct (step w o) as [r w']. simpl. by destruct (run w' ops).
Qed.

(** The ids handed out by a run start at the counter and go up. *)
Lemma run_added_ids (ops : list op) (self : FinanceManager) (disk : Disk) :
  Forall (λ i, next_transaction_id self ≤ i) (added_ids (run (self, disk) ops).1)
  ∧ StronglySorted Z.lt (added_ids (run (self, disk) ops).1)
  ∧ next_transaction_id self ≤ next_transaction_id (run (self, disk) ops).2.1.
Proof.
  revert self disk. induction ops as [|o ops IH]; intros self disk.
  - simpl. split_and!; [constructor|constructor|lia].
  - rewrite run_cons. destruct o as [now ty cat amt descr|id].
    + rewrite step_add. cbn [fst snd added_ids].
      match goal with |- context [run (?s, ?d) ops] =>
        destruct (IH s d) as (Hge & Hsort & Hnext) end.
      simpl in Hge, Hnext. cbn [transaction_id new_Transaction].
      split_and!.
      * constructor; [lia|]. eapply Forall_impl; [done|]. simpl. lia.
      * constructor; [done|]. eapply Forall_impl; [done|]. simpl. lia.
      * lia.
    + rewrite step_delete. cbn [fst snd added_ids].
      pose proof (delete_transaction_sublist id self disk) as [_ Hn].
      match goal with |- context [run (?s, ?d) ops] =>
        destruct (IH s d) as (Hge & Hsort & Hnext) end.
      rewrite Hn in Hge, Hnext. done.
Qed.

Lemma StronglySorted_lt_NoDup (l : list Z) : StronglySorted Z.lt l → NoDup l.
Proof.
  induction 1 as [|x l _ IH Hx]; constructor; [|done].
  intros Hin. rewrite Forall_forall in Hx. specialize (Hx _ Hin). lia.
Qed.

(** C1 as stated fails: on the ledger that the constructor builds from a
    file with a transaction of id 7 and counter 3, a deletion of 7 and five
    additions return the ids 3 to 7; the id 7 is given again after the
    transaction that bore it is deleted. *)
Lemma add_transaction_reuses_loaded_id :
  ¬ (∀ self disk ops,
       reachable self →
       Forall (λ i, i ∉ ids self) (added_ids (run (self, disk) ops).1)).
Proof.
  intros H.
  specialize (H {| transactions := [rent]; next_transaction_id := 3 |} no_file
                (Delete 7 :: replicate 5 (Add noon "expense" "Food" 1%float ""))).
  assert (reachable {| transactions := [rent]; next_transaction_id := 3 |}) as Hr.
  { apply (reachable_new (λ _, noon) (file_of store_with_stale_counter)).
    vm_compute. reflexivity. }
  apply H in Hr. clear H.
  replace (added_ids _) with [3; 4; 5; 6; 7] in Hr by (vm_compute; reflexivity).
  rewrite Forall_forall in Hr. apply (Hr 7); [|unfold ids; simpl]; set_solver.
Qed.

(** C1, amended. Whatever the ledger and whatever the calls, deletions
    included, the ids of the transactions that the [Add] calls return are
    strictly increasing in call order, hence pairwise distinct, and none is
    below the counter that the run started with. When that counter is above
    the ids of the collection, no returned id is the id of a transaction
    that the collection held, deleted since or not. *)
Theorem add_transaction_ids_increasing (self : FinanceManager) (disk : Disk)
    (ops : list op) :
  StronglySorted Z.lt (added_ids (run (self, disk) ops).1)
  ∧ NoDup (added_ids (run (self, disk) ops).1)
  ∧ Forall (λ i, next_transaction_id self ≤ i) (added_ids (run (self, disk) ops).1)
  ∧ (counter_above self →
     Forall (λ i, i ∉ ids self) (added_ids (run (self, disk) ops).1)).
Proof.
  destruct (run_added_ids ops self disk) as (Hge & Hsort & _).
  split_and!; [done|by apply StronglySorted_lt_NoDup|done|].
  intros Hc. eapply Forall_impl; [exact Hge|]. simpl. intros i Hi Hin.
  unfold counter_above in Hc. rewrite Forall_forall in Hc.
  specialize (Hc i Hin). simpl in Hc. lia.
Qed.

Lemma add_transaction_ids_increasing_witness :
  let self := {| transactions := [rent]; next_transaction_id := 8 |} in
  let ops := [Delete 7; Add noon "expense" "Food" 12%float "Lunch";
              Add noon "income" "Salary" 1000%float "July pay"] in
  counter_above self
  ∧ Forall (λ i, i ∉ ids self) (added_ids (run (self, no_file) ops).1).
Proof.
  assert (counter_above {| transactions := [rent]; next_transaction_id := 8 |})
    as Hc.
  { unfold counter_above, ids. simpl. repeat constructor. }
  split; [exact Hc|].
  destruct (add_transaction_ids_increasing
              {| transactions := [rent]; next_transaction_id := 8 |} no_file
              [Delete 7; Add noon "expense" "Food" 12%float "Lunch";
               Add noon "income" "Salary" 1000%float "July pay"])
    as (_ & _ & _ & H).
  exact (H Hc).
Defined.

(** An id is not handed out again after its transaction is deleted. *)
Example add_delete_add :
  added_ids (run (fresh, no_file)
               [Add noon "income" "Salary" 1000%float "July pay";
                Delete 1;
                Add noon "expense" "Food" 50%float "Groceries"]).1
  = [1; 2].
Proof. reflexivity. Qed.

(** C4 as stated fails: [add_transaction] has no check of the kind, and a
    call with the kind ["gift"] does create a transaction. *)
Lemma add_transaction_accepts_other_kind :
  ¬ (∀ now ty cat amt descr self disk,
       ty ≠ "income" → ty ≠ "expense" →
       transactions (add_transaction now ty cat amt descr self disk).1.2
       = transactions self).
Proof.
  intros H.
  specialize (H noon "gift" "Misc" 5%float "" fresh no_file).
  discriminate H; done.
Qed.

(** C4, amended. [add_transaction] accepts every kind, valid or not: the
    transaction it returns has the kind, category, amount and description
    of the call, the id of the counter and the formatted clock reading; it
    is appended to the collection, the counter goes up by one and the new
    state is written to the file. *)
Theorem add_transaction_any_kind now (ty cat : string) (amt : float)
    (descr : string) (self : FinanceManager) (disk : Disk) :
  let '(t, self', disk') := add_transaction now ty cat amt descr self disk in
  t = {| transaction_id := next_transaction_id self;
         transaction_type := ty; category := cat; amount := amt;
         description := descr; date := strftime now |}
  ∧ transactions self' = transactions self ++ [t]
  ∧ next_transaction_id self' = next_transaction_id self + 1
  ∧ data_file disk' = Some (Document (dump self'))
  ∧ writes disk' = S (writes disk).
Proof. done. Qed.

(* ===================================================================== *)
(** * The counter invariant *)
(* ===================================================================== *)

Lemma ids_delete_sublist (id : Z) (self : FinanceManager) (disk : Disk) :
  sublist (ids (delete_transaction id self disk).1.2) (ids self).
Proof.
  unfold ids. apply fmap_sublist. apply delete_transaction_sublist.
Qed.

Lemma counter_above_delete (id : Z) (self : FinanceManager) (disk : Disk) :
  counter_above self → counter_above (delete_transaction id self disk).1.2.
Proof.
  unfold counter_above. rewrite !Forall_forall. intros H i Hi.
  destruct (delete_transaction_sublist id self disk) as [_ ->].
  apply H. eapply elem_of_sublist; [done|]. apply ids_delete_sublist.
Qed.

Lemma counter_above_add now ty cat amt descr (self : FinanceManager) (disk : Disk) :
  counter_above self →
  counter_above (add_transaction now ty cat amt descr self disk).1.2.
Proof.
  unfold counter_above, ids. simpl. rewrite fmap_app, Forall_app. intros H. split.
  - eapply Forall_impl; [done|]. simpl. lia.
  - repeat constructor. simpl. lia.
Qed.

Lemma NoDup_ids_delete (id : Z) (self : FinanceManager) (disk : Disk) :
  NoDup (ids self) → NoDup (ids (delete_transaction id self disk).1.2).
Proof. intros H. eapply sublist_NoDup; eauto using ids_delete_sublist. Qed.

Lemma NoDup_ids_add now ty cat amt descr (self : FinanceManager) (disk : Disk) :
  counter_above self → NoDup (ids self) →
  NoDup (ids (add_transaction now ty cat amt descr self disk).1.2).
Proof.
  unfold counter_above, ids. simpl. intros Hc Hn.
  rewrite fmap_app, NoDup_app. split_and!; [done| |apply NoDup_singleton].
  intros i Hi. rewrite Forall_forall in Hc. specialize (Hc _ Hi).
  simpl. rewrite list_elem_of_singleton. lia.
Qed.

(** Along a run that starts below the counter, the collection stays below
    the counter, free of duplicate ids, and so does every id handed out. *)
Lemma run_counter (ops : list op) (self : FinanceManager) (disk : Disk) :
  counter_above self →
  counter_above (run (self, disk) ops).2.1
  ∧ (NoDup (ids self) → NoDup (ids (run (self, disk) ops).2.1))
  ∧ Forall (λ i, i < next_transaction_id (run (self, disk) ops).2.1)
      (added_ids (run (self, disk) ops).1).
Proof.
  revert self disk. induction ops as [|o ops IH]; intros self disk Hc.
  - simpl. split_and!; [done|done|constructor].
  - rewrite run_cons. destruct o as [now ty cat amt descr|id].
    + pose proof (counter_above_add now ty cat amt descr self disk Hc) as Hc'.
      pose proof (NoDup_ids_add now ty cat amt descr self disk Hc) as Hn'.
      rewrite step_add. cbn [fst snd added_ids]. simpl in Hc', Hn'.
      match goal with |- context [run (?s, ?d) ops] =>
        destruct (IH s d Hc') as (Hca & Hnd & Hlt);
        destruct (run_added_ids ops s d) as (_ & _ & Hnext) end.
      simpl in Hnext. cbn [transaction_id new_Transaction].
      split_and!; [done|auto|]. constructor; [lia|done].
    + pose proof (counter_above_delete id self disk Hc) as Hc'.
      pose proof (NoDup_ids_delete id self disk) as Hn'.
      rewrite step_delete. cbn [fst snd added_ids].
      destruct (IH _ (delete_transaction id self disk).2 Hc') as (Hca & Hnd & Hlt).
      split_and!; [done|auto|done].
Qed.

(** C7 as stated fails: the constructor copies [next_id] from the file
    unchecked, so a file whose counter is stale yields a ledger whose
    counter is below an id of its collection. *)
Lemma load_stale_counter :
  ¬ (∀ self, reachable self → counter_above self).
Proof.
  intros H.
  assert (reachable {| transactions := [rent]; next_transaction_id := 3 |}) as Hr.
  { apply (reachable_new (λ _, noon) (file_of store_with_stale_counter)).
    vm_compute. reflexivity. }
  apply H in Hr. unfold counter_above, ids in Hr. simpl in Hr.
  apply Forall_cons_1 in Hr as [Hlt _]. simpl in Hlt. lia.
Qed.

(** C7, amended. Starting from a ledger whose counter is above the ids of
    its collection, such as the empty ledger set up when no file exists or
    when the file is discarded, every sequence of [Add] and [Delete] calls
    leaves the counter strictly above every id of the collection and above
    every id that was in the collection at some point of the run. *)
Theorem counter_above_ever_present (self : FinanceManager) (disk : Disk)
    (ops : list op) :
  counter_above self →
  Forall (λ i, i < next_transaction_id (run (self, disk) ops).2.1)
    (ids (run (self, disk) ops).2.1 ++ ever_present self (run (self, disk) ops).1).
Proof.
  intros Hc. destruct (run_counter ops self disk Hc) as (Hca & _ & Hlt).
  destruct (run_added_ids ops self disk) as (_ & _ & Hnext).
  unfold ever_present. rewrite !Forall_app. split_and!; [done| |done].
  eapply Forall_impl; [apply Hc|]. simpl. lia.
Qed.

Lemma counter_above_ever_present_witness :
  Forall (λ i, i < 3)
    (ids (run (fresh, no_file)
            [Add noon "income" "Salary" 1000%float "July pay";
             Add noon "expense" "Food" 50%float "Groceries";
             Delete 1]).2.1
     ++ ever_present fresh
          (run (fresh, no_file)
             [Add noon "income" "Salary" 1000%float "July pay";
              Add noon "expense" "Food" 50%float "Groceries";
              Delete 1]).1).
Proof.
  apply (counter_above_ever_present fresh no_file
           [Add noon "income" "Salary" 1000%float "July pay";
            Add noon "expense" "Food" 50%float "Groceries";
            Delete 1]).
  constructor.
Defined.

(* ===================================================================== *)
(** * What a deletion removes *)
(* ===================================================================== *)

(** C10. [delete_transaction] removes at most one transaction. Either no
    transaction bears the id and nothing changes, or the collection splits
    around the first transaction that bears it, and exactly that one is
    taken out: what precedes it and what follows it, later bearers of the
    same id included, stay in place and in order. The counter is not
    touched. A ledger constructed without a file never holds two
    transactions with one id, whatever the calls made on it. *)
Theorem delete_transaction_first_only (id : Z) (self : FinanceManager)
    (disk : Disk) :
  (let '(found, self', _) := delete_transaction id self disk in
   next_transaction_id self' = next_transaction_id self
   ∧ ((found = false ∧ self' = self ∧ (id ∉ ids self))
      ∨ (found = true
         ∧ ∃ l1 t l2, transactions self = l1 ++ t :: l2
                      ∧ transaction_id t = id
                      ∧ (id ∉ transaction_id <$> l1)
                      ∧ transactions self' = l1 ++ l2)))
  ∧ (∀ clock ops,
       let absent := {| data_file := None; writes := writes disk |} in
       ∃ built, new_FinanceManager clock absent = Constructed built
                ∧ NoDup (ids (run (built, absent) ops).2.1)).
Proof.
  split.
  - destruct (delete_transaction_cases id self disk)
      as [[Hid ->]|(l1 & t & l2 & Hl & Ht & Hl1 & ->)].
    + split; [done|]. by left.
    + split; [done|]. right. split; [done|]. by exists l1, t, l2.
  - intros clock ops absent. exists fresh. split; [done|].
    assert (counter_above fresh) as Hc by constructor.
    destruct (run_counter ops fresh absent Hc) as (_ & Hnd & _).
    apply Hnd. constructor.
Qed.

(** In a collection loaded with a repeated id, one deletion takes out the
    first bearer only. *)
Example delete_transaction_duplicate :
  new_FinanceManager (λ _, noon) (file_of store_with_duplicate_id)
  = Constructed {| transactions := [lunch; dinner]; next_transaction_id := 2 |}
  ∧ (delete_transaction 1
       {| transactions := [lunch; dinner]; next_transaction_id := 2 |} no_file).1
    = (true, {| transactions := [dinner]; next_transaction_id := 2 |}).
Proof. split; vm_compute; reflexivity. Qed.

(** C5 as stated fails: when the file held two transactions with one id,
    deleting that id twice succeeds twice. *)
Lemma delete_transaction_twice_duplicate :
  ¬ (∀ id self disk,
       reachable self → id ∈ ids self →
       let r := delete_transaction id self disk in
       r.1.1 = true ∧ (delete_transaction id r.1.2 r.2).1.1 = false).
Proof.
  intros H.
  specialize (H 1 {| transactions := [lunch; dinner]; next_transaction_id := 2 |}
                no_file).
  destruct H as [_ H].
  - apply (reachable_new (λ _, noon) (file_of store_with_duplicate_id)).
    vm_compute. reflexivity.
  - unfold ids. simpl. left.
  - vm_compute in H. discriminate H.
Qed.

(** C5, amended. When a transaction bears the id, [delete_transaction]
    returns true and writes the new state to the file; when none does, it
    returns false, writes nothing and leaves the collection as it was; and
    when the ids of the collection are pairwise distinct, a second deletion
    of an id that was present returns false and changes nothing. *)
Theorem delete_transaction_spec (id : Z) (self : FinanceManager) (disk : Disk) :
  let '(found, self', disk') := delete_transaction id self disk in
  (id ∈ ids self →
     found = true
     ∧ data_file disk' = Some (Document (dump self'))
     ∧ writes disk' = S (writes disk))
  ∧ (id ∉ ids self → found = false ∧ self' = self ∧ disk' = disk)
  ∧ (id ∈ ids self → NoDup (ids self) →
     delete_transaction id self' disk' = (false, self', disk')).
Proof.
  destruct (delete_transaction_cases id self disk)
    as [[Hid ->]|(l1 & t & l2 & Hl & Ht & Hl1 & ->)]; cbv zeta.
  - split_and!; done.
  - assert (id ∈ ids self) as Hin.
    { unfold ids. rewrite Hl, fmap_app, fmap_cons, elem_of_app, elem_of_cons. auto. }
    split_and!; [done|done|]. intros _ Hnd.
    match goal with |- delete_transaction id ?s ?d = _ =>
      destruct (delete_transaction_cases id s d) as [[_ ->]|(k1 & u & k2 & Hk & Hu & _)]
    end; [done|].
    exfalso. unfold ids in Hnd. rewrite Hl, fmap_app, fmap_cons, Ht in Hnd.
    apply NoDup_app in Hnd as (_ & Hnot & Htl). apply NoDup_cons in Htl as [Hl2 _].
    assert (id ∈ transaction_id <$> l1 ++ l2) as Hin'.
    { simpl in Hk. rewrite Hk, fmap_app, fmap_cons, elem_of_app, elem_of_cons. auto. }
    rewrite fmap_app, elem_of_app in Hin'. destruct Hin' as [Hin'|Hin']; [done|done].
Qed.

Lemma delete_transaction_spec_witness :
  let self := {| transactions := [rent; lunch]; next_transaction_id := 8 |} in
  let '(found, self', disk') := delete_transaction 7 self no_file in
  found = true
  ∧ data_file disk' = Some (Document (dump self'))
  ∧ writes disk' = 1%nat
  ∧ delete_transaction 7 self' disk' = (false, self', disk')
  ∧ delete_transaction 9 self no_file = (false, self, no_file).
Proof.
  pose proof (delete_transaction_spec 7
    {| transactions := [rent; lunch]; next_transaction_id := 8 |} no_file) as H7.
  pose proof (delete_transaction_spec 9
    {| transactions := [rent; lunch]; next_transaction_id := 8 |} no_file) as H9.
  cbv zeta.
  destruct (delete_transaction 7 _ no_file) as [[found self'] disk'] eqn:E7.
  destruct (delete_transaction 9 _ no_file) as [[found9 self9] disk9] eqn:E9.
  destruct H7 as (Hin & _ & Htwice). destruct H9 as (_ & Hout & _).
  assert (7 ∈ ids {| transactions := [rent; lunch]; next_transaction_id := 8 |})
    as Hp by (unfold ids; simpl; left).
  assert (NoDup (ids {| transactions := [rent; lunch]; next_transaction_id := 8 |}))
    as Hnd.
  { unfold ids. simpl. compute_done. }
  assert (9 ∉ ids {| transactions := [rent; lunch]; next_transaction_id := 8 |})
    as Hq.
  { unfold ids. simpl. compute_done. }
  destruct (Hin Hp) as (-> & Hfile & Hw). destruct (Hout Hq) as (-> & -> & ->).
  split_and!; [done|done|done|by apply Htwice|done].
Defined.

(* ===================================================================== *)
(** * Loading *)
(* ===================================================================== *)

Lemma strftime_nonempty (now : datetime) : strftime now ≠ "".
Proof. done. Qed.

Lemma new_Transaction_date now id ty cat amt descr dt :
  date (new_Transaction now id ty cat amt descr dt) ≠ "".
Proof.
  simpl. destruct dt as [s|]; [|apply strftime_nonempty].
  destruct (String.eqb_spec s ""); [apply strftime_nonempty|done].
Qed.

Lemma from_dict_to_dict (now : datetime) (t : Transaction) :
  date t ≠ "" → from_dict now (to_dict t) = Ok (Some t).
Proof.
  destruct t as [i ty c a d dt]. simpl. intros Hd.
  unfold from_dict, to_dict, getitem.
  repeat (rewrite ?lookup_insert_eq; rewrite ?lookup_insert_ne by done).
  simpl. unfold as_date. simpl.
  destruct (String.eqb_spec dt ""); [done|]. simpl.
  unfold new_Transaction.
  destruct (String.eqb_spec dt ""); [done|]. done.
Qed.

Lemma from_dict_dated (now : datetime) (j : json) (t : Transaction) :
  from_dict now j = Ok (Some t) → date t ≠ "".
Proof.
  unfold from_dict.
  destruct (getitem j "transaction_id") as [i|]; [|done].
  destruct (getitem j "transaction_type") as [ty|]; [|done].
  destruct (getitem j "category") as [c|]; [|done].
  destruct (getitem j "amount") as [a|]; [|done].
  destruct (getitem j "description") as [d|]; [|done].
  destruct (getitem j "date") as [dt|]; [|done].
  cbn [bind]. intros [= H].
  destruct (as_int i), (as_str ty), (as_str c), (as_float a), (as_str d),
    (as_date dt); cbn [mbind option_bind] in H; try discriminate H.
  injection H as <-. apply new_Transaction_date.
Qed.

Lemma from_dicts_dated clock (items : list json) :
  ∀ i objs, from_dicts clock i items = Ok objs →
            Forall (λ o, ∀ t, o = Some t → date t ≠ "") objs.
Proof.
  induction items as [|j items IH]; intros i objs; simpl.
  - intros [= <-]. constructor.
  - destruct (from_dict (clock i) j) as [o|] eqn:Ho; [|done]. simpl.
    destruct (from_dicts clock (S i) items) as [os|] eqn:Hos; [|done]. simpl.
    intros [= <-]. constructor; [|by eapply IH].
    intros t ->. by eapply from_dict_dated.
Qed.

Lemma from_dicts_to_dict clock (l : list Transaction) :
  Forall (λ t, date t ≠ "") l →
  ∀ i, from_dicts clock i (to_dict <$> l) = Ok (Some <$> l).
Proof.
  induction 1 as [|t l Ht _ IH]; intros i; [done|].
  rewrite !fmap_cons. cbn [from_dicts].
  by rewrite from_dict_to_dict, IH.
Qed.

Lemma load_body_dated clock (c : contents) (self : FinanceManager) :
  load_body clock c = Ok (Some self) → dated self.
Proof.
  unfold load_body.
  destruct (json_load c) as [data|]; [|done]. simpl.
  destruct (getitem data "transactions") as [ts|]; [|done]. simpl.
  destruct (py_iter ts) as [items|]; [|done]. simpl.
  destruct (from_dicts clock 0 items) as [objs|] eqn:Hobjs; [|done]. simpl.
  destruct (py_get data "next_id" (JInt 1)) as [nid|]; [|done]. simpl.
  destruct (mapM id objs) as [l|] eqn:Hl; [|done]. simpl.
  destruct (as_int nid) as [n|]; [|done]. simpl.
  intros [= <-]. unfold dated. simpl.
  apply from_dicts_dated in Hobjs. apply mapM_Some in Hl.
  induction Hl as [|o t objs l Hot _ IH]; [constructor|].
  apply Forall_cons_1 in Hobjs as [Ho Hobjs].
  constructor; [by apply Ho|by apply IH].
Qed.

Lemma reachable_dated (self : FinanceManager) : reachable self → dated self.
Proof.
  induction 1 as [clock disk self Hnew|now ty cat amt descr self disk _ IH
                 |id self disk _ IH].
  - unfold new_FinanceManager, load_transactions in Hnew.
    destruct (data_file disk) as [c|].
    + destruct (load_body clock c) as [[self'|]|e] eqn:Hb.
      * injection Hnew as <-. by eapply load_body_dated.
      * done.
      * destruct e; simplify_eq; constructor.
    + injection Hnew as <-. constructor.
  - unfold dated. simpl. apply Forall_app. split; [done|].
    repeat constructor. apply strftime_nonempty.
  - unfold dated, delete_transaction.
    destruct (first_match id 0 (transactions self)); simpl; [|done].
    by apply Forall_delete.
Qed.

Lemma load_body_dump clock (self : FinanceManager) :
  dated self → load_body clock (Document (dump self)) = Ok (Some self).
Proof.
  intros Hd. destruct self as [l n]. unfold load_body, dump, getitem, py_get.
  cbn [json_load bind transactions next_transaction_id].
  rewrite lookup_insert_eq. cbn [bind py_iter].
  rewrite comprehension_all, from_dicts_to_dict by done. cbn [bind].
  rewrite lookup_insert_ne, lookup_insert_eq by done. cbn [bind default from_option id as_int].
  by rewrite mapM_fmap_Some.
Qed.

(* ===================================================================== *)
(** * Persistence round trip *)
(* ===================================================================== *)

(** C6. Writing a ledger to the file and constructing a ledger from that
    file gives back the same ledger: the same transactions, field by field
    and in the same order, and the same counter. *)
Theorem save_load_roundtrip (self : FinanceManager) (disk : Disk)
    (clock : nat → datetime) :
  reachable self →
  new_FinanceManager clock (save_transactions self disk) = Constructed self.
Proof.
  intros Hr. apply reachable_dated in Hr.
  unfold new_FinanceManager, load_transactions, save_transactions. simpl.
  by rewrite load_body_dump.
Qed.

Lemma save_load_roundtrip_witness :
  let self := (add_transaction noon "income" "Salary" 1000%float "July pay"
                 fresh no_file).1.2 in
  reachable self
  ∧ new_FinanceManager (λ _, noon) (save_transactions self no_file)
    = Constructed self.
Proof.
  assert (reachable (add_transaction noon "income" "Salary" 1000%float "July pay"
                       fresh no_file).1.2) as Hr.
  { apply reachable_add. by apply (reachable_new (λ _, noon) no_file). }
  split; [exact Hr|].
  exact (save_load_roundtrip _ no_file (λ _, noon) Hr).
Defined.

(* ===================================================================== *)
(** * Files that are discarded *)
(* ===================================================================== *)

Lemma from_dict_object now (d : gmap string json) :
  (lacks_field (JObj d) = true ∧ ∃ k, from_dict now (JObj d) = Raise (KeyError k))
  ∨ (lacks_field (JObj d) = false ∧ ∃ o, from_dict now (JObj d) = Ok o).
Proof.
  unfold from_dict, lacks_field, getitem, fields. cbn [existsb].
  destruct (d !! "transaction_id"); cbn [bind];
    [|left; split; [done|by eexists]].
  destruct (d !! "transaction_type"); cbn [bind];
    [|left; split; [done|by eexists]].
  destruct (d !! "category"); cbn [bind];
    [|left; split; [done|by eexists]].
  destruct (d !! "amount"); cbn [bind];
    [|left; split; [done|by eexists]].
  destruct (d !! "description"); cbn [bind];
    [|left; split; [done|by eexists]].
  destruct (d !! "date"); cbn [bind];
    [|left; split; [done|by eexists]].
  right. split; [done|by eexists].
Qed.

Lemma from_dicts_KeyError clock (l : list json) :
  forallb is_object l = true → existsb lacks_field l = true →
  ∀ i, ∃ k, from_dicts clock i l = Raise (KeyError k).
Proof.
  induction l as [|j l IH]; [done|]. cbn [forallb existsb from_dicts].
  intros [Hobj Hall]%andb_true_iff Hex i.
  destruct j as [| | | | | |d]; try done.
  destruct (from_dict_object (clock i) d) as [[_ [k ->]]|[Hno [o ->]]].
  - by exists k.
  - rewrite Hno in Hex. destruct (IH Hall Hex (S i)) as [k ->]. by exists k.
Qed.

(** C3 as stated fails: a file that lacks [next_id] is not discarded; its
    transactions are loaded and the counter is 1. *)
Lemma load_without_next_id :
  ¬ (∀ clock disk c,
       data_file disk = Some c → malformed c →
       new_FinanceManager clock disk = Constructed fresh).
Proof.
  intros H.
  specialize (H (λ _, noon) (file_of store_without_next_id)
                (Document store_without_next_id) eq_refl).
  assert (malformed (Document store_without_next_id)) as Hm.
  { right. eexists. split; [reflexivity|]. right. done. }
  apply H in Hm. vm_compute in Hm. discriminate Hm.
Qed.

(** The same file, as the constructor reads it. *)
Example load_without_next_id_result :
  new_FinanceManager (λ _, noon) (file_of store_without_next_id)
  = Constructed {| transactions := [rent]; next_transaction_id := 1 |}.
Proof. vm_compute. reflexivity. Qed.

(** A file that holds JSON which is not an object ends the constructor
    with a [TypeError], which [load_transactions] does not catch; so does,
    with the exception of [json.load], a file that is not text, that is
    nested too deep or that holds too long an integer. *)
Example load_not_an_object :
  new_FinanceManager (λ _, noon) (file_of (JArr [])) = Crashed TypeError
  ∧ new_FinanceManager (λ _, noon) {| data_file := Some NotText; writes := 0 |}
    = Crashed UnicodeDecodeError
  ∧ new_FinanceManager (λ _, noon) {| data_file := Some TooDeep; writes := 0 |}
    = Crashed RecursionError
  ∧ new_FinanceManager (λ _, noon) {| data_file := Some TooLong; writes := 0 |}
    = Crashed ValueError.
Proof. split_and!; reflexivity. Qed.

(** C3, amended. When the file exists and holds text that is not JSON, or
    an object without the list of transactions, or an object whose list
    holds objects of which one lacks a field, the constructor does not fail
    and gives the empty ledger with counter 1. A file that lacks only
    [next_id] is loaded: the ledger holds its transactions and the counter
    is 1. *)
Theorem load_transactions_discards (clock : nat → datetime) (disk : Disk)
    (c : contents) :
  data_file disk = Some c →
  (discarded c → new_FinanceManager clock disk = Constructed fresh)
  ∧ (∀ d l ts,
       c = Document (JObj d) →
       d !! "transactions" = Some (JArr l) → d !! "next_id" = None →
       from_dicts clock 0 l = Ok (Some <$> ts) →
       new_FinanceManager clock disk
       = Constructed {| transactions := ts; next_transaction_id := 1 |}).
Proof.
  intros Hfile. unfold new_FinanceManager, load_transactions. rewrite Hfile.
  split.
  - intros [->|[(d & -> & Hd)|(d & l & -> & Hd & Hobj & Hlack)]].
    + done.
    + unfold load_body, getitem. cbn [json_load bind]. by rewrite Hd.
    + unfold load_body, getitem. cbn [json_load bind]. rewrite Hd.
      cbn [bind py_iter].
      destruct (from_dicts_KeyError clock l Hobj Hlack 0) as [k ->]. done.
  - intros d l ts -> Hd Hn Hl.
    unfold load_body, getitem, py_get. cbn [json_load bind]. rewrite Hd.
    cbn [bind py_iter]. rewrite Hl, Hn.
    cbn [bind default from_option id as_int].
    by rewrite mapM_fmap_Some.
Qed.

Lemma load_transactions_discards_witness :
  new_FinanceManager (λ _, noon)
    {| data_file := Some NotJSON; writes := 0 |} = Constructed fresh
  ∧ new_FinanceManager (λ _, noon) (file_of store_without_next_id)
    = Constructed {| transactions := [rent]; next_transaction_id := 1 |}.
Proof.
  split.
  - apply (proj1 (load_transactions_discards (λ _, noon)
             {| data_file := Some NotJSON; writes := 0 |} NotJSON eq_refl)).
    by left.
  - apply (proj2 (load_transactions_discards (λ _, noon)
             (file_of store_without_next_id) (Document store_without_next_id)
             eq_refl) (<["transactions" := JArr [to_dict rent]]> ∅)
             [to_dict rent] [rent]).
    + reflexivity.
    + reflexivity.
    + reflexivity.
    + vm_compute. reflexivity.
Defined.

(* ===================================================================== *)
(** * Scenarios *)
(* ===================================================================== *)

(** Two additions on a new ledger: ids 1 and 2, balance 949.75, and a
    summary that holds 50.25 for Food and nothing else. *)
Example scenario_salary_groceries :
  let '(rs, (self, _)) :=
    run (fresh, no_file)
      [Add noon "income" "Salary" 1000%float "July pay";
       Add noon "expense" "Food" (50.25%float) "Groceries"] in
  added_ids rs = [1; 2]
  ∧ calculate_balance self = 949.75%float
  ∧ get_category_summary self = {["Food" := 50.25%float]}
  ∧ date <$> transactions self = ["2024-07-01 12:00:00"; "2024-07-01 12:00:00"].
Proof.
  cbv zeta. simpl run. cbv beta iota zeta.
  split_and!.
  - reflexivity.
  - reflexivity.
  - apply map_eq. intros k. rewrite get_category_summary_lookup.
    destruct (decide (k = "Food")) as [->|Hk].
    + rewrite lookup_singleton_eq. reflexivity.
    + rewrite lookup_singleton_ne by done.
      unfold expenses_in, of_kind. simpl.
      rewrite filter_cons_False by done. rewrite filter_cons_True by done.
      rewrite filter_cons_False by done. done.
  - reflexivity.
Qed.

(** The empty ledger: nothing listed, balance 0, empty summary. *)
Example scenario_empty :
  new_FinanceManager (λ _, noon) no_file = Constructed fresh
  ∧ get_all_transactions fresh = []
  ∧ calculate_balance fresh = 0%float
  ∧ get_category_summary fresh = ∅.
Proof. split_and!; done. Qed.

(** Two additions, then the first transaction is deleted: only the second
    is listed, and a second deletion finds nothing. *)
Example scenario_add_add_delete :
  let '(rs, (self, _)) :=
    run (fresh, no_file)
      [Add noon "income" "Salary" 1000%float "July pay";
       Add noon "expense" "Food" 50%float "Groceries";
       Delete 1; Delete 1] in
  ids self = [2]
  ∧ rs !! 2%nat = Some (Deleted true)
  ∧ rs !! 3%nat = Some (Deleted false).
Proof. vm_compute. done. Qed.

(** A ledger loaded with a stale counter runs into the loaded id: the file
    holds id 7 and counter 3, and the fifth addition is given id 7. *)
Example stale_counter_repeats_id :
  new_FinanceManager (λ _, noon) (file_of store_with_stale_counter)
  = Constructed {| transactions := [rent]; next_transaction_id := 3 |}
  ∧ ids (run ({| transactions := [rent]; next_transaction_id := 3 |}, no_file)
           (replicate 5 (Add noon "expense" "Food" 1%float ""))).2.1
    = [7; 3; 4; 5; 6; 7].
Proof. split; vm_compute; reflexivity. Qed.

(* ===================================================================== *)
(** * Reading one transaction *)
(* ===================================================================== *)

Lemma from_dict_cases (now : datetime) (j : json) :
  match j with
  | JObj d =>
      match first_missing d with
      | Some k => from_dict now j = Raise (KeyError k)
      | None => ∃ o, from_dict now j = Ok o
      end
  | _ => from_dict now j = Raise TypeError
  end.
Proof.
  destruct j as [| | | | | |d]; try reflexivity.
  unfold first_missing, fields, from_dict, getitem.
  repeat match goal with
  | |- context [filter _ (?k :: _)] =>
      destruct (d !! k) eqn:?;
        [rewrite filter_cons_False by (rewrite ?H; congruence)
        |rewrite filter_cons_True by done; reflexivity]
  end.
  simpl. by eexists.
Qed.

(** X1. [from_dict] on an object that is not a dict raises [TypeError]; on
    a dict that lacks fields it raises [KeyError] for the first lacking
    field in the order id, kind, category, amount, description, date; on a
    dict that has the six fields it raises nothing. *)
Theorem from_dict_errors (now : datetime) (j : json) :
  match j with
  | JObj d =>
      match first_missing d with
      | Some k => from_dict now j = Raise (KeyError k)
      | None => ∃ o, from_dict now j = Ok o
      end
  | _ => from_dict now j = Raise TypeError
  end.
Proof. apply from_dict_cases. Qed.

(** X2. [from_dict] reads the six fields and nothing else: an entry under
    any other key does not change what it returns, so such an entry is
    lost when the ledger is next saved. *)
Theorem from_dict_ignores_other_keys (now : datetime) (d : gmap string json)
    (k : string) (v : json) :
  k ∉ fields →
  from_dict now (JObj (<[k := v]> d)) = from_dict now (JObj d).
Proof.
  intros Hk. unfold from_dict, getitem.
  assert (∀ f, f ∈ fields → <[k := v]> d !! f = d !! f) as Hf.
  { intros f Hin. apply lookup_insert_ne. intros ->. done. }
  rewrite !Hf by (unfold fields; set_solver). done.
Qed.

Lemma from_dict_ignores_other_keys_witness :
  from_dict noon (JObj (<["note" := JStr "paid late"]>
                        (<["transaction_id" := JInt 7]> ∅)))
  = from_dict noon (JObj (<["transaction_id" := JInt 7]> ∅)).
Proof.
  apply (from_dict_ignores_other_keys noon (<["transaction_id" := JInt 7]> ∅)
           "note" (JStr "paid late")).
  unfold fields. compute_done.
Defined.

(** X3. Reading back what [to_dict] wrote gives the same transaction,
    except that an empty date is replaced by the clock reading at the time
    of reading. *)
Theorem from_dict_to_dict_date (now : datetime) (t : Transaction) :
  from_dict now (to_dict t)
  = Ok (Some (if String.eqb (date t) "" then
                {| transaction_id := transaction_id t;
                   transaction_type := transaction_type t;
                   category := category t;
                   amount := amount t;
                   description := description t;
                   date := strftime now |}
              else t)).
Proof.
  destruct (String.eqb_spec (date t) "") as [He|Hne].
  - destruct t as [i ty c a d dt]. simpl in He. subst dt.
    unfold from_dict, to_dict, getitem.
    repeat (rewrite ?lookup_insert_eq; rewrite ?lookup_insert_ne by done).
    reflexivity.
  - by apply from_dict_to_dict.
Qed.

(* ===================================================================== *)
(** * How the constructor can fail *)
(* ===================================================================== *)






(** X5. The constructor fails with [TypeError] when the file holds JSON
    that is not an object, when the entry for the transactions is a number,
    a boolean or null, and when the first element of the list of
    transactions is not an object. *)
Theorem constructor_crashes (clock : nat → datetime) (w : nat) :
  (∀ j, is_object j = false →
        new_FinanceManager clock {| data_file := Some (Document j); writes := w |}
        = Crashed TypeError)
  ∧ (∀ d v, d !! "transactions" = Some v → is_scalar v = true →
            new_FinanceManager clock
              {| data_file := Some (Document (JObj d)); writes := w |}
            = Crashed TypeError)
  ∧ (∀ d j l, d !! "transactions" = Some (JArr (j :: l)) → is_object j = false →
              new_FinanceManager clock
                {| data_file := Some (Document (JObj d)); writes := w |}
              = Crashed TypeError).
Proof.
  unfold new_FinanceManager, load_transactions, load_body. simpl.
  split_and!.
  - intros j Hj. by destruct j.
  - intros d v Hd Hv. rewrite Hd. simpl. by destruct v.
  - intros d j l Hd Hj. rewrite Hd. simpl. by destruct j.
Qed.

(** X6. The constructor reads the entries [transactions] and [next_id] of
    the file and nothing else: an entry under any other key changes
    nothing. *)
Theorem constructor_ignores_other_keys (clock : nat → datetime)
    (d : gmap string json) (k : string) (v : json) (w : nat) :
  k ≠ "transactions" → k ≠ "next_id" →
  new_FinanceManager clock
    {| data_file := Some (Document (JObj (<[k := v]> d))); writes := w |}
  = new_FinanceManager clock
      {| data_file := Some (Document (JObj d)); writes := w |}.
Proof.
  intros Ht Hn.
  unfold new_FinanceManager, load_transactions, load_body, getitem, py_get.
  simpl. by rewrite !lookup_insert_ne by done.
Qed.

Lemma constructor_ignores_other_keys_witness :
  new_FinanceManager (λ _, noon)
    {| data_file := Some (Document (JObj (<["version" := JInt 2]>
                                          (<["next_id" := JInt 4]> ∅))));
       writes := 0 |}
  = new_FinanceManager (λ _, noon)
      {| data_file := Some (Document (JObj (<["next_id" := JInt 4]> ∅)));
         writes := 0 |}.
Proof.
  by apply (constructor_ignores_other_keys (λ _, noon)
              (<["next_id" := JInt 4]> ∅) "version" (JInt 2) 0).
Defined.

(* ===================================================================== *)
(** * Accounting of a run *)
(* ===================================================================== *)

Lemma delete_transaction_found (id : Z) (self : FinanceManager) (disk : Disk) :
  let '(found, self', disk') := delete_transaction id self disk in
  if found
  then S (length (transactions self')) = length (transactions self)
       ∧ writes disk' = S (writes disk)
  else self' = self ∧ disk' = disk.
Proof.
  destruct (delete_transaction_cases id self disk)
    as [[_ ->]|(l1 & t & l2 & Hl & _ & _ & ->)]; [done|].
  simpl. split; [|done]. rewrite Hl, !length_app. simpl. lia.
Qed.

Lemma run_accounting_proj (ops : list op) (self : FinanceManager) (disk : Disk) :
  next_transaction_id (run (self, disk) ops).2.1
  = next_transaction_id self + Z.of_nat (count_adds ops)
  ∧ writes (run (self, disk) ops).2.2
    = (writes disk + count_adds ops + count_found (run (self, disk) ops).1)%nat
  ∧ (length (transactions (run (self, disk) ops).2.1)
     + count_found (run (self, disk) ops).1
     = length (transactions self) + count_adds ops)%nat.
Proof.
  revert self disk. induction ops as [|o ops IH]; intros self disk.
  - simpl. split_and!; lia.
  - rewrite run_cons. destruct o as [now ty cat amt descr|id].
    + rewrite step_add. cbn [fst snd count_adds count_found].
      match goal with |- context [run (?s, ?d) ops] =>
        destruct (IH s d) as (Hn & Hw & Hlen) end.
      cbn [next_transaction_id transactions save_transactions writes] in Hn, Hw, Hlen.
      rewrite length_app in Hlen. cbn [length] in Hlen.
      rewrite Hn, Hw. split_and!; lia.
    + rewrite step_delete. cbn [fst snd count_adds count_found].
      pose proof (delete_transaction_found id self disk) as Hd.
      pose proof (delete_transaction_sublist id self disk) as [_ Hnext].
      destruct (delete_transaction id self disk) as [[found s1] d1].
      cbn [fst snd] in *.
      destruct (IH s1 d1) as (Hn & Hw & Hlen). rewrite Hn, Hw.
      destruct found.
      * destruct Hd as [Hl Hwr]. split_and!; lia.
      * destruct Hd as [-> ->]. split_and!; lia.
Qed.

(** X7. Over any sequence of calls, the counter goes up by the number of
    [Add] calls, the file is written once for every [Add] and once for
    every [Delete] that found its transaction, and never otherwise, and the
    collection grows by the number of [Add] calls less the number of such
    [Delete] calls. *)
Theorem run_accounting (ops : list op) (self : FinanceManager) (disk : Disk) :
  let '(rs, (self', disk')) := run (self, disk) ops in
  next_transaction_id self' = next_transaction_id self + Z.of_nat (count_adds ops)
  ∧ writes disk' = (writes disk + count_adds ops + count_found rs)%nat
  ∧ (length (transactions self') + count_found rs
     = length (transactions self) + count_adds ops)%nat.
Proof.
  pose proof (run_accounting_proj ops self disk) as H.
  by destruct (run (self, disk) ops) as [rs [self' disk']].
Qed.

(** X8. The ids that the [Add] calls of a run return are the consecutive
    integers that start at the counter, one for each [Add]. *)
Theorem added_ids_consecutive (ops : list op) (self : FinanceManager)
    (disk : Disk) :
  added_ids (run (self, disk) ops).1
  = seqZ (next_transaction_id self) (Z.of_nat (count_adds ops)).
Proof.
  revert self disk. induction ops as [|o ops IH]; intros self disk; [done|].
  rewrite run_cons. destruct o as [now ty cat amt descr|id].
  - rewrite step_add. cbn [fst snd added_ids count_adds].
    rewrite IH. cbn [next_transaction_id transaction_id new_Transaction].
    rewrite Nat2Z.inj_succ, (seqZ_cons (next_transaction_id self)) by lia.
    do 2 f_equal; lia.
  - rewrite step_delete. cbn [fst snd added_ids count_adds].
    rewrite IH. by destruct (delete_transaction_sublist id self disk) as [_ ->].
Qed.

(* ===================================================================== *)
(** * The file follows the ledger *)
(* ===================================================================== *)

Lemma in_sync_reachable (self : FinanceManager) (disk : Disk) :
  in_sync self disk → reachable self.
Proof. intros H. apply (reachable_new (λ _, noon) disk), H. Qed.

Lemma in_sync_save (self : FinanceManager) (disk : Disk) :
  reachable self → in_sync self (save_transactions self disk).
Proof.
  intros Hr clock. apply reachable_dated in Hr.
  unfold new_FinanceManager, load_transactions, save_transactions. simpl.
  by rewrite load_body_dump.
Qed.

Lemma in_sync_step (self : FinanceManager) (disk : Disk) (o : op) :
  in_sync self disk → in_sync (step (self, disk) o).2.1 (step (self, disk) o).2.2.
Proof.
  intros Hs. pose proof (in_sync_reachable _ _ Hs) as Hr.
  destruct o as [now ty cat amt descr|id].
  - rewrite step_add. cbn [fst snd]. apply in_sync_save.
    apply (reachable_add now ty cat amt descr self disk Hr).
  - rewrite step_delete. cbn [fst snd].
    pose proof (reachable_delete id self disk Hr) as Hr'.
    destruct (delete_transaction_cases id self disk)
      as [[_ ->]|(l1 & t & l2 & _ & _ & _ & Hd)]; [done|].
    rewrite Hd in Hr' |- *. cbn [fst snd] in *. by apply in_sync_save.
Qed.

Lemma run_keeps_in_sync (ops : list op) (self : FinanceManager) (disk : Disk) :
  in_sync self disk →
  in_sync (run (self, disk) ops).2.1 (run (self, disk) ops).2.2.
Proof.
  revert self disk. induction ops as [|o ops IH]; intros self disk Hs; [done|].
  rewrite run_cons. cbn [snd].
  pose proof (in_sync_step self disk o Hs) as Hs'.
  destruct (step (self, disk) o) as [r [s1 d1]]. by apply IH.
Qed.

(** X9. If a restart would rebuild the ledger from the file before a
    sequence of calls, it would after it too: whatever the calls, the
    constructor applied to the file they leave builds the ledger they
    leave. *)
Theorem run_in_sync (ops : list op) (self : FinanceManager) (disk : Disk) :
  in_sync self disk →
  in_sync (run (self, disk) ops).2.1 (run (self, disk) ops).2.2.
Proof. apply run_keeps_in_sync. Qed.

Lemma run_in_sync_witness :
  in_sync fresh no_file
  ∧ in_sync
      (run (fresh, no_file)
         [Add noon "income" "Salary" 1000%float "July pay"; Delete 4]).2.1
      (run (fresh, no_file)
         [Add noon "income" "Salary" 1000%float "July pay"; Delete 4]).2.2.
Proof.
  assert (in_sync fresh no_file) as H by (intros clock; reflexivity).
  split; [exact H|].
  exact (run_in_sync
           [Add noon "income" "Salary" 1000%float "July pay"; Delete 4]
           fresh no_file H).
Defined.

(* ===================================================================== *)
(** * Balance under additions and deletions *)
(* ===================================================================== *)


(** After an income of 0.1 and an expense of 0.3 the balance is
    -0.19999999999999998; an income of 0.2 then makes it
    5.551115123125783e-17, which is not the balance plus 0.2,
    2.7755575615628914e-17. *)
Example add_transaction_balance_rounds :
  let self := (run (fresh, no_file)
                 [Add noon "income" "Gift" 0.1 "";
                  Add noon "expense" "Food" 0.3 ""]).2.1 in
  calculate_balance (add_transaction noon "income" "Gift" 0.2 "" self no_file).1.2
  ≠ (calculate_balance self + 0.2)%float.
Proof. cbv zeta. intros H. vm_compute in H. discriminate H. Qed.

(** X12. Deleting the id that an addition has just returned undoes the
    addition, provided no transaction of the collection bore the id of the
    counter: the collection is as before, and only the counter keeps the
    trace of the addition. *)
Theorem add_then_delete now (ty cat : string) (amt : float) (descr : string)
    (self : FinanceManager) (disk : Disk) :
  next_transaction_id self ∉ ids self →
  let '(t, self1, disk1) := add_transaction now ty cat amt descr self disk in
  let '(found, self2, _) := delete_transaction (transaction_id t) self1 disk1 in
  found = true
  ∧ transactions self2 = transactions self
  ∧ next_transaction_id self2 = next_transaction_id self + 1.
Proof.
  intros Hfresh. cbv zeta. simpl.
  match goal with |- context [delete_transaction ?i ?s ?d] =>
    destruct (delete_transaction_cases i s d)
      as [[Hno _]|(l1 & t & l2 & Hl & Ht & Hl1 & ->)] end.
  - exfalso. apply Hno. unfold ids. simpl. rewrite fmap_app. set_solver.
  - simpl in Hl. cbv zeta. split_and!; [done| |done]. simpl.
    destruct l2 as [|u l2] using rev_ind.
    + apply app_inj_tail in Hl as [-> _]. by rewrite app_nil_r.
    + exfalso. clear IHl2.
      change (l1 ++ t :: l2 ++ [u]) with (l1 ++ (t :: l2) ++ [u]) in Hl.
      rewrite app_assoc in Hl. apply app_inj_tail in Hl as [Hl _].
      apply Hfresh. unfold ids. rewrite Hl, fmap_app, fmap_cons, Ht. set_solver.
Qed.

Lemma add_then_delete_witness :
  let self := {| transactions := [rent]; next_transaction_id := 8 |} in
  let '(t, self1, disk1) :=
    add_transaction noon "expense" "Food" 12%float "Lunch" self no_file in
  let '(found, self2, _) := delete_transaction (transaction_id t) self1 disk1 in
  found = true
  ∧ transactions self2 = [rent]
  ∧ next_transaction_id self2 = 9.
Proof.
  apply (add_then_delete noon "expense" "Food" 12%float "Lunch"
           {| transactions := [rent]; next_transaction_id := 8 |} no_file).
  unfold ids. simpl. compute_done.
Defined.

(* ===================================================================== *)
(** * The summary in the order of the dict *)
(* ===================================================================== *)

(** X13. The dict that [get_category_summary] builds has each category
    once, and its items are, up to their order, the entries of the summary
    as a map; a category stands where its first expense put it. *)
Theorem get_category_summary_items_spec (self : FinanceManager) :
  NoDup (get_category_summary_items self).*1
  ∧ list_to_map (get_category_summary_items self) = get_category_summary self
  ∧ get_category_summary_items self ≡ₚ map_to_list (get_category_summary self)
  ∧ (∀ t, (get_category_summary_items
             {| transactions := transactions self ++ [t];
                next_transaction_id := next_transaction_id self |}).*1
          = if String.eqb (transaction_type t) "expense"
               && negb (bool_decide
                          (category t ∈ (get_category_summary_items self).*1))
            then (get_category_summary_items self).*1 ++ [category t]
            else (get_category_summary_items self).*1).
Proof.
  unfold get_category_summary_items, get_category_summary.
  destruct (summary_items_from (transactions self) []) as [Hnd Hmap];
    [constructor|].
  change (list_to_map []) with (∅ : gmap string float) in Hmap.
  split_and!; [done|done| |].
  - rewrite <- Hmap. symmetry. by apply map_to_list_to_map.
  - intros t. simpl. rewrite foldl_snoc. unfold summary_items_step at 1.
    destruct (String.eqb (transaction_type t) "expense"); [|done]. simpl.
    rewrite dict_set_keys. by destruct (bool_decide _).
Qed.

(* ===================================================================== *)
(** * The interface *)
(* ===================================================================== *)

Section Interface.
Local Abbreviation ledger_run := run.
Local Abbreviation ledger_delete := delete_transaction.
Import FinanceTrackerUI.
Context (B : Builtins) (clock : nat → datetime).


(** X14. The three figures of [view_balance] agree: the balance shown is
    the income shown less the expenses shown, the income being the sum of
    the amounts of the income transactions and the expenses that of the
    expense transactions. Nothing but the screen changes. *)
Theorem view_balance_figures (ui : UI) :
  view_balance ui
  = print (FinancialSummary
             (sum_amounts (of_kind "income" (transactions (manager ui))))
             (sum_amounts (of_kind "expense" (transactions (manager ui))))
             (sum_amounts (of_kind "income" (transactions (manager ui)))
              - sum_amounts (of_kind "expense" (transactions (manager ui))))%float)
      ui.
Proof.
  unfold view_balance, calculate_balance, get_transactions_by_type.
  rewrite !sum_of_kind.
  rewrite !(comprehension_filter id _ (λ t, transaction_type t = _))
    by (intros; apply eqb_kind).
  by rewrite !list_fmap_id, !comprehension_all.
Qed.


Lemma run_app_state (w : FinanceManager * Disk) (ops1 ops2 : list op) :
  (ledger_run w (ops1 ++ ops2)).2 = (ledger_run (ledger_run w ops1).2 ops2).2.
Proof.
  revert w. induction ops1 as [|o ops1 IH]; intros w; [done|].
  rewrite <- app_comm_cons, !run_cons. cbn [snd]. apply IH.
Qed.

Lemma tame_ret {A} (a : A) : tame (Returned a).
Proof. intros ui. split; [done|]. by exists []. Qed.

Lemma tame_bind {A C} (m : io A) (k : A → io C) :
  tame m → (∀ a, tame (k a)) → tame (io_bind m k).
Proof.
  intros Hm Hk ui. unfold io_bind.
  destruct (Hm ui) as (Hlen & ops & Hops & Hrun).
  destruct (m ui) as [a ui'|e ui']; simpl in *.
  - destruct (Hk a ui') as (Hlen' & ops' & Hops' & Hrun').
    split; [lia|]. exists (ops ++ ops'). split; [by apply Forall_app|].
    by rewrite run_app_state, <- Hrun.
  - split; [done|]. by exists ops.
Qed.

Lemma tame_print (o : output) : tame (print o).
Proof. intros ui. split; [done|]. by exists []. Qed.

Lemma tame_input (p : prompt) : tame (input p).
Proof.
  intros ui. unfold input. destruct (stdin ui) as [|line rest]; simpl.
  - split; [done|]. by exists [].
  - split; [lia|]. by exists [].
Qed.

Lemma tame_convert (s : string) : tame (convert B s).
Proof.
  intros ui. unfold convert. destruct (py_float B s); (split; [done|]); by exists [].
Qed.

Lemma tame_manager_add (ty cat : string) (amt : float) (descr : string) :
  ty = "income" ∨ ty = "expense" → tame (manager_add clock ty cat amt descr).
Proof.
  intros Hty ui. split; [done|].
  exists [Add (clock (elapsed ui)) ty cat amt descr].
  split; [constructor; [exact Hty|constructor]|]. done.
Qed.

Lemma tame_manager_delete (id : Z) : tame (manager_delete id).
Proof.
  intros ui. split; [done|]. exists [Delete id].
  split; [constructor; [exact I|constructor]|].
  unfold manager_delete. simpl.
  by destruct (ledger_delete id (manager ui) (storage ui)) as [[found s] d].
Qed.

Lemma tame_add_form (kind : string) :
  kind = "income" ∨ kind = "expense" → tame (add_form B clock kind).
Proof.
  intros Hk. unfold add_form.
  repeat (apply tame_bind; [|intros ?]);
    auto using tame_print, tame_input, tame_convert, tame_manager_add.
Qed.

Lemma tame_view_all_transactions : tame view_all_transactions.
Proof.
  intros ui. unfold view_all_transactions.
  destruct (get_all_transactions (manager ui)); apply tame_print.
Qed.

Lemma tame_view_balance : tame view_balance.
Proof. intros ui. apply tame_print. Qed.

Lemma tame_view_category_summary : tame (view_category_summary B).
Proof.
  intros ui. unfold view_category_summary.
  destruct (get_category_summary_items (manager ui)); apply tame_print.
Qed.

Lemma tame_delete_transaction : tame (FinanceTrackerUI.delete_transaction B).
Proof.
  unfold FinanceTrackerUI.delete_transaction.
  apply tame_bind; [apply tame_view_all_transactions|]. intros _ ui.
  destruct (get_all_transactions (manager ui)); [apply tame_ret|].
  apply tame_bind; [apply tame_input|]. intros s.
  destruct (py_int B s); [|apply tame_print].
  apply tame_bind; [apply tame_manager_delete|]. intros found. apply tame_print.
Qed.

Lemma tame_dispatch (choice : string) : tame (dispatch B clock choice).
Proof.
  unfold dispatch, add_income, add_expense.
  repeat match goal with |- context [String.eqb choice ?c] =>
    destruct (String.eqb choice c) end;
    (apply tame_bind; [|intros ?; apply tame_ret]);
    auto using tame_add_form, tame_view_all_transactions, tame_view_balance,
      tame_view_category_summary, tame_delete_transaction, tame_print.
Qed.

Lemma continue_never_breaks {A} (m : io A) (ui ui' : UI) :
  io_bind m (λ _, Returned Continue) ui ≠ Returned Break ui'.
Proof. unfold io_bind. by destruct (m ui). Qed.

Lemma dispatch_break (choice : string) (ui ui' : UI) :
  dispatch B clock choice ui = Returned Break ui' →
  last (stdout ui') = Some Goodbye ∧ choice = "7".
Proof.
  unfold dispatch.
  repeat match goal with |- context [String.eqb choice ?c] =>
    destruct (String.eqb_spec choice c) end;
    try (intros H; by apply continue_never_breaks in H).
  intros [= <-]. simpl. split; [apply last_snoc|done].
Qed.

Lemma loop_spec (fuel : nat) (ui : UI) :
  (length (stdin ui) < fuel)%nat →
  match (loop B clock fuel ui).1 with
  | Exited => last (stdout (loop B clock fuel ui).2) = Some Goodbye
  | Aborted e => e = EOFError ∧ stdin (loop B clock fuel ui).2 = []
  | OutOfFuel => False
  end
  ∧ ∃ ops, Forall menu_op ops
           ∧ (manager (loop B clock fuel ui).2, storage (loop B clock fuel ui).2)
             = (ledger_run (manager ui, storage ui) ops).2.
Proof.
  revert ui. induction fuel as [|fuel IH]; intros ui Hfuel; [lia|].
  cbn [loop]. unfold display_menu, io_bind, print, input. cbn [stdin].
  destruct (stdin ui) as [|line rest] eqn:Hin; cbn [length] in Hfuel.
  { simpl. split; [done|]. by exists []. }
  match goal with |- context [dispatch B clock ?c ?u] =>
    pose proof (tame_dispatch c u) as (Hlen & ops & Hops & Hrun);
    pose proof (dispatch_break c u) as Hbreak;
    destruct (dispatch B clock c u) as [[|] ui''|e ui''] end;
    cbn [after stdin manager storage] in Hlen, Hrun.
  - destruct (IH ui'') as (Hend & ops' & Hops' & Hrun'); [lia|].
    split; [done|]. exists (ops ++ ops'). split; [by apply Forall_app|].
    by rewrite run_app_state, <- Hrun.
  - simpl. split; [by apply (Hbreak ui'')|]. by exists ops.
  - match goal with |- context [loop B clock fuel ?u] =>
      destruct (IH u) as (Hend & ops' & Hops' & Hrun'); [simpl; lia|] end.
    split; [done|]. exists (ops ++ ops'). split; [by apply Forall_app|].
    by rewrite run_app_state, <- Hrun.
Qed.


Lemma run_effect (ui : UI) :
  ∃ ops, Forall menu_op ops
         ∧ manager (FinanceTrackerUI.run B clock ui).2
           = (ledger_run (manager ui, storage ui) ops).2.1
         ∧ storage (FinanceTrackerUI.run B clock ui).2
           = (ledger_run (manager ui, storage ui) ops).2.2.
Proof.
  unfold FinanceTrackerUI.run.
  destruct (loop_spec (S (length (stdin ui))) (after (print Welcome ui)))
    as [_ (ops & Hops & Hrun)]; [simpl; lia|].
  exists ops. split; [done|].
  change (manager (after (print Welcome ui))) with (manager ui) in Hrun.
  change (storage (after (print Welcome ui))) with (storage ui) in Hrun.
  split; [exact (f_equal fst Hrun)|exact (f_equal snd Hrun)].
Qed.

(** X17. Whatever the user types, a session changes the ledger and its
    file as some sequence of [Add] and [Delete] calls does, in which every
    [Add] is of kind income or expense. *)
Theorem run_is_a_ledger_run (ui : UI) :
  ∃ ops, Forall menu_op ops
         ∧ (manager (FinanceTrackerUI.run B clock ui).2,
            storage (FinanceTrackerUI.run B clock ui).2)
           = (ledger_run (manager ui, storage ui) ops).2.
Proof.
  destruct (run_effect ui) as (ops & Hops & -> & ->).
  exists ops. split; [done|]. by destruct (ledger_run _ ops).2.
Qed.

Lemma menu_run_kinds (ops : list op) (self : FinanceManager) (disk : Disk) :
  Forall menu_op ops →
  Forall (λ t, transaction_type t = "income" ∨ transaction_type t = "expense")
    (transactions self) →
  Forall (λ t, transaction_type t = "income" ∨ transaction_type t = "expense")
    (transactions (ledger_run (self, disk) ops).2.1).
Proof.
  intros Hops. revert self disk.
  induction Hops as [|o ops Ho _ IH]; intros self disk Hk; [done|].
  rewrite run_cons. cbn [snd]. destruct o as [now ty cat amt descr|id].
  - rewrite step_add. cbn [snd]. apply IH. simpl.
    apply Forall_app. split; [done|]. constructor; [exact Ho|constructor].
  - rewrite step_delete. cbn [snd]. apply IH.
    unfold ledger_delete.
    destruct (first_match id 0 (transactions self)); simpl; [|done].
    by apply Forall_delete.
Qed.

(** X18. The interface never creates a transaction of a kind other than
    income and expense: if every transaction of the ledger is of one of
    the two kinds before a session, so is every one after it. *)
Theorem run_keeps_kinds (ui : UI) :
  Forall (λ t, transaction_type t = "income" ∨ transaction_type t = "expense")
    (transactions (manager ui)) →
  Forall (λ t, transaction_type t = "income" ∨ transaction_type t = "expense")
    (transactions (manager (FinanceTrackerUI.run B clock ui).2)).
Proof.
  intros Hk. destruct (run_effect ui) as (ops & Hops & -> & _).
  by apply menu_run_kinds.
Qed.

(** X19. A session keeps the file in step with the ledger: if a restart
    would have rebuilt the ledger before the session, then a restart after
    it, however it ended, rebuilds the ledger that it left. *)
Theorem run_keeps_file_in_sync (ui : UI) :
  in_sync (manager ui) (storage ui) →
  in_sync (manager (FinanceTrackerUI.run B clock ui).2)
    (storage (FinanceTrackerUI.run B clock ui).2).
Proof.
  intros Hs. destruct (run_effect ui) as (ops & Hops & -> & ->).
  by apply run_keeps_in_sync.
Qed.

(** X20. A session keeps the ids apart: if the counter is above the ids
    of the collection and no two transactions share an id before the
    session, the same holds after it. *)
Theorem run_keeps_ids_distinct (ui : UI) :
  counter_above (manager ui) → NoDup (ids (manager ui)) →
  counter_above (manager (FinanceTrackerUI.run B clock ui).2)
  ∧ NoDup (ids (manager (FinanceTrackerUI.run B clock ui).2)).
Proof.
  intros Hc Hn. destruct (run_effect ui) as (ops & Hops & -> & _).
  destruct (run_counter ops (manager ui) (storage ui) Hc) as (Hc' & Hn' & _).
  auto.
Qed.

(** X21. When the text typed for the amount is not a number, the form
    raises [ValueError] after two lines: the description is not asked for,
    no transaction is created and the file is not written. *)
Theorem add_form_bad_amount (kind c a : string) (rest : list string) (ui : UI) :
  stdin ui = c :: a :: rest → py_float B a = None →
  add_form B clock kind ui
  = Raised ValueError
      {| manager := manager ui; storage := storage ui; stdin := rest;
         stdout := stdout ui ++ [Heading kind; Prompted (AskCategory kind);
                                 Prompted AskAmount];
         elapsed := S (S (elapsed ui)) |}.
Proof.
  intros Hin Ha. unfold add_form, io_bind, print, input, convert.
  cbn [stdin]. rewrite Hin. cbn [stdin]. rewrite Ha.
  cbn [manager storage stdout elapsed]. by rewrite <- !app_assoc.
Qed.

(** X22. The deletion form. On an empty ledger it says so and reads
    nothing. Otherwise it reads one line: if this is not an integer it
    reports an invalid id and leaves the ledger and the file alone; if it
    is, the ledger and the file are what [delete_transaction] makes of
    them, and the message tells whether a transaction was found. *)
Theorem delete_form (ui : UI) (s : string) (rest : list string) :
  (transactions (manager ui) = [] →
   FinanceTrackerUI.delete_transaction B ui = print NoTransactions ui)
  ∧ (transactions (manager ui) ≠ [] → stdin ui = s :: rest →
     let ui' := after (FinanceTrackerUI.delete_transaction B ui) in
     stdin ui' = rest
     ∧ match py_int B s with
       | None =>
           manager ui' = manager ui ∧ storage ui' = storage ui
           ∧ last (stdout ui') = Some InvalidID
       | Some id =>
           (manager ui', storage ui')
           = ((ledger_delete id (manager ui) (storage ui)).1.2,
              (ledger_delete id (manager ui) (storage ui)).2)
           ∧ last (stdout ui')
             = Some (if (ledger_delete id (manager ui) (storage ui)).1.1
                     then DeletedOk else NotFound)
       end).
Proof.
  unfold FinanceTrackerUI.delete_transaction, view_all_transactions,
    get_all_transactions, io_bind.
  split.
  - intros Hempty. rewrite Hempty. simpl. by rewrite Hempty.
  - intros Hne Hin. destruct (transactions (manager ui)) as [|t ts] eqn:Hts; [done|].
    cbn [print manager]. rewrite Hts. unfold input. cbn [stdin]. rewrite Hin.
    cbn [stdin manager storage stdout].
    destruct (py_int B s) as [id|]; simpl.
    + split; [done|]. split; [done|]. apply last_snoc.
    + split; [done|]. split_and!; [done|done|apply last_snoc].
Qed.

End Interface.

Lemma run_keeps_kinds_witness :
  Forall (λ t, transaction_type t = "income" ∨ transaction_type t = "expense")
    (transactions (FinanceTrackerUI.manager
       (FinanceTrackerUI.run sample_builtins (λ _, noon)
          (sample_ui ["1"; "Salary"; "1000"; "July pay"; "7"])).2)).
Proof.
  apply (run_keeps_kinds sample_builtins (λ _, noon)
           (sample_ui ["1"; "Salary"; "1000"; "July pay"; "7"])).
  constructor.
Defined.

Lemma run_keeps_file_in_sync_witness :
  in_sync
    (FinanceTrackerUI.manager
       (FinanceTrackerUI.run sample_builtins (λ _, noon)
          (sample_ui ["2"; "Food"; "12"; "Lunch"; "6"; "1"])).2)
    (FinanceTrackerUI.storage
       (FinanceTrackerUI.run sample_builtins (λ _, noon)
          (sample_ui ["2"; "Food"; "12"; "Lunch"; "6"; "1"])).2).
Proof.
  apply (run_keeps_file_in_sync sample_builtins (λ _, noon)
           (sample_ui ["2"; "Food"; "12"; "Lunch"; "6"; "1"])).
  intros clock. reflexivity.
Defined.

Lemma run_keeps_ids_distinct_witness :
  counter_above
    (FinanceTrackerUI.manager
       (FinanceTrackerUI.run sample_builtins (λ _, noon)
          (sample_ui ["1"; "Salary"; "1000"; "July pay"; "7"])).2)
  ∧ NoDup (ids (FinanceTrackerUI.manager
       (FinanceTrackerUI.run sample_builtins (λ _, noon)
          (sample_ui ["1"; "Salary"; "1000"; "July pay"; "7"])).2)).
Proof.
  apply (run_keeps_ids_distinct sample_builtins (λ _, noon)
           (sample_ui ["1"; "Salary"; "1000"; "July pay"; "7"])).
  - constructor.
  - constructor.
Defined.

Lemma add_form_bad_amount_witness :
  FinanceTrackerUI.add_form sample_builtins (λ _, noon) "expense"
    (sample_ui ["Food"; "a lot"; "Lunch"])
  = FinanceTrackerUI.Raised FinanceTrackerUI.ValueError
      {| FinanceTrackerUI.manager := fresh;
         FinanceTrackerUI.storage := no_file;
         FinanceTrackerUI.stdin := ["Lunch"];
         FinanceTrackerUI.stdout :=
           [FinanceTrackerUI.Heading "expense";
            FinanceTrackerUI.Prompted (FinanceTrackerUI.AskCategory "expense");
            FinanceTrackerUI.Prompted FinanceTrackerUI.AskAmount];
         FinanceTrackerUI.elapsed := 2 |}.
Proof.
  apply (add_form_bad_amount sample_builtins (λ _, noon) "expense" "Food" "a lot"
           ["Lunch"] (sample_ui ["Food"; "a lot"; "Lunch"])); reflexivity.
Defined.

(** A session on a new ledger: an income, an expense whose amount is not a
    number, the balance, then Exit. *)
Example sample_session :
  let r := FinanceTrackerUI.run sample_builtins (λ _, noon)
             (sample_ui ["1"; "Salary"; "1000"; "July pay";
                         "2"; "Food"; "a lot";
                         "4"; "7"]) in
  r.1 = FinanceTrackerUI.Exited
  ∧ ids (FinanceTrackerUI.manager r.2) = [1]
  ∧ writes (FinanceTrackerUI.storage r.2) = 1%nat
  ∧ FinanceTrackerUI.stdin r.2 = []
  ∧ FinanceTrackerUI.ErrorOccurred FinanceTrackerUI.ValueError
      ∈ FinanceTrackerUI.stdout r.2.
Proof.
  cbv zeta. split_and!; [reflexivity..|].
  vm_compute FinanceTrackerUI.stdout. set_solver.
Qed.

Lemma delete_form_witness :
  FinanceTrackerUI.delete_transaction sample_builtins (sample_ui ["1"])
  = FinanceTrackerUI.print FinanceTrackerUI.NoTransactions (sample_ui ["1"])
  ∧ (let ui := {| FinanceTrackerUI.manager :=
                    {| transactions := [rent]; next_transaction_id := 8 |};
                  FinanceTrackerUI.storage := no_file;
                  FinanceTrackerUI.stdin := ["seven"; "7"];
                  FinanceTrackerUI.stdout := [];
                  FinanceTrackerUI.elapsed := 0 |} in
     let ui' := FinanceTrackerUI.after
                  (FinanceTrackerUI.delete_transaction sample_builtins ui) in
     FinanceTrackerUI.stdin ui' = ["7"]
     ∧ FinanceTrackerUI.manager ui'
       = {| transactions := [rent]; next_transaction_id := 8 |}
     ∧ FinanceTrackerUI.storage ui' = no_file
     ∧ last (FinanceTrackerUI.stdout ui') = Some FinanceTrackerUI.InvalidID).
Proof.
  split.
  - apply (proj1 (delete_form sample_builtins (sample_ui ["1"]) "1" [])).
    reflexivity.
  - cbv zeta.
    pose proof (proj2 (delete_form sample_builtins
      {| FinanceTrackerUI.manager :=
           {| transactions := [rent]; next_transaction_id := 8 |};
         FinanceTrackerUI.storage := no_file;
         FinanceTrackerUI.stdin := ["seven"; "7"];
         FinanceTrackerUI.stdout := [];
         FinanceTrackerUI.elapsed := 0 |} "seven" ["7"])) as H.
    cbv zeta in H. destruct H as [Hin H]; [discriminate|reflexivity|].
    change (FinanceTrackerUI.py_int sample_builtins "seven") with (@None Z) in H.
    destruct H as (Hm & Hs & Hl). split_and!; assumption.
Defined.

Lemma constructor_crashes_witness :
  new_FinanceManager (λ _, noon) (file_of (JStr "ledger")) = Crashed TypeError
  ∧ new_FinanceManager (λ _, noon)
      (file_of (JObj (<["transactions" := JNull]> ∅))) = Crashed TypeError
  ∧ new_FinanceManager (λ _, noon)
      (file_of (JObj (<["transactions" := JArr [JInt 1; to_dict rent]]> ∅)))
    = Crashed TypeError.
Proof.
  destruct (constructor_crashes (λ _, noon) 0) as (H1 & H2 & H3).
  split_and!.
  - by apply H1.
  - by apply (H2 _ JNull).
  - by apply (H3 _ (JInt 1) [to_dict rent]).
Defined.
